(** * Browser session service: session lifecycle and encrypted metadata store

    A shallow embedding of [BrowserSessionManager]
    (src/browser_session_service.py) and the properties of its metadata
    store, expiration policy, pending-login registry and action dispatcher.

    Conventions of the embedding.
    - Python values that travel through [json] are [pyobj] trees; a [dict]
      is an insertion-ordered association list whose keys are strings.
    - A naive [datetime] is its number of microseconds since
      0001-01-01T00:00:00; Python's range (years 1..9999) is [valid_datetime].
    - The libraries the service calls (hashlib, cryptography.fernet, json,
      datetime formatting) are an interface, [PyLibs], with their documented
      contracts in [PyLibsLaws]; [Ref] is a small instance of it.
    - The browser-automation engine is an oracle: every call of a method
      takes a record saying what each engine call returns or throws.
    - The disk is a map from the path text of a directory to the files
      inside it; a directory below another one is a key of its own, whose
      text continues the other's past a slash. Path texts are spelled as
      pathlib spells them; a ".." component and a symbolic link are not
      resolved, so what is stated about the directories of two different
      keys is stated for flat keys, whose names hold no slash. File
      operations do not fail.
    - The second part adds the key bootstrap, the engine shutdown,
      [list_sessions] and the HTTP routes that wrap the methods. *)

From Stdlib Require Import ZArith String Ascii List Bool Lia.
From Stdlib Require Import Decimal DecimalString DecimalPos DecimalZ.
From stdpp Require Import base option gmap strings list fin_maps.
Import ListNotations.

Local Open Scope string_scope.
Local Open Scope Z_scope.

(** ** Python values *)

#[local] Unset Elimination Schemes.
Inductive pyobj : Type :=
  | PNone
  | PBool (b : bool)
  | PInt (z : Z)
  | PStr (s : string)
  | PList (l : list pyobj)
  | PDict (d : list (string * pyobj)).
#[local] Set Elimination Schemes.

(** [d.get(k)]: the value stored under [k], if any. *)
Fixpoint dict_get (d : list (string * pyobj)) (k : string) : option pyobj :=
  match d with
  | [] => None
  | (k', v) :: d' => if String.eqb k' k then Some v else dict_get d' k
  end.

(** Python truthiness, as used by [not x], [x or y] and [if x]. *)
Definition truthy (v : pyobj) : bool :=
  match v with
  | PNone => false
  | PBool b => b
  | PInt z => negb (z =? 0)
  | PStr s => negb (String.eqb s "")
  | PList l => match l with [] => false | _ => true end
  | PDict d => match d with [] => false | _ => true end
  end.

Fixpoint distinct (l : list string) : bool :=
  match l with
  | [] => true
  | k :: l' => negb (existsb (String.eqb k) l') && distinct l'
  end.

(** A [pyobj] denotes a Python value when no dict repeats a key. *)
Fixpoint wf_pyobj (v : pyobj) : bool :=
  match v with
  | PList l => forallb wf_pyobj l
  | PDict d => distinct (map fst d) && forallb (fun kv => wf_pyobj (snd kv)) d
  | _ => true
  end.

(** ** Time *)

Definition datetime := Z.

(** 9999-12-31T23:59:59.999999, i.e. [datetime.max]. *)
Definition datetime_max : Z := 3652059 * 86400 * 1000000 - 1.

Definition valid_datetime (d : datetime) : Prop := 0 <= d <= datetime_max.

(** [timedelta(hours=h)] in microseconds. *)
Definition timedelta_hours (h : Z) : Z := h * 3600 * 1000000.
Definition timedelta_seconds (s : Z) : Z := s * 1000000.

(** [d + td]; [None] is Python's [OverflowError: date value out of range]. *)
Definition datetime_add (d : datetime) (td : Z) : option datetime :=
  if (0 <=? d + td) && (d + td <=? datetime_max) then Some (d + td) else None.

(** ** Library interface *)

Class PyLibs := {
  (** [hashlib.sha256(s.encode()).hexdigest()] *)
  sha256_hexdigest : string -> string;
  (** [Fernet(key).encrypt]: the first argument is the fresh IV and
      timestamp the library draws for the token. *)
  fernet_encrypt : string -> string -> string;
  (** [Fernet(key).decrypt]; [None] is [InvalidToken]. *)
  fernet_decrypt : string -> option string;
  json_dumps : pyobj -> string;
  (** [None] is [JSONDecodeError]. *)
  json_loads : string -> option pyobj;
  (** [datetime.isoformat()] *)
  isoformat : datetime -> string;
  (** [datetime.fromisoformat]; [None] is [ValueError]. *)
  fromisoformat : string -> option datetime;
  (** [strftime('%Y%m%d_%H%M%S')] *)
  strftime_compact : datetime -> string
}.

Class PyLibsLaws (L : PyLibs) : Prop := {
  decrypt_encrypt : forall iv p, fernet_decrypt (fernet_encrypt iv p) = Some p;
  loads_dumps : forall v, wf_pyobj v = true -> json_loads (json_dumps v) = Some v;
  loads_wf : forall s v, json_loads s = Some v -> wf_pyobj v = true;
  fromisoformat_isoformat :
    forall d, valid_datetime d -> fromisoformat (isoformat d) = Some d;
  fromisoformat_valid : forall s d, fromisoformat s = Some d -> valid_datetime d
}.

(** ** Configuration and data model *)

Definition SESSIONS_DIR : string := "user_sessions".
Definition SESSION_TIMEOUT_HOURS : Z := 24 * 7.

(** The dataclass. Its annotations ([str], [bool], [Dict]) are not checked
    at run time, so the fields that come back from JSON are [pyobj]s; the
    two timestamps are [datetime]s by construction. *)
Record SessionMetadata := {
  user_id : pyobj;
  site_name : pyobj;
  created_at : datetime;
  last_used : datetime;
  is_valid : pyobj;
  session_data : pyobj
}.

Definition set_last_used (now : datetime) (m : SessionMetadata) : SessionMetadata :=
  {| user_id := user_id m; site_name := site_name m; created_at := created_at m;
     last_used := now; is_valid := is_valid m; session_data := session_data m |}.

Definition set_is_valid (b : pyobj) (m : SessionMetadata) : SessionMetadata :=
  {| user_id := user_id m; site_name := site_name m; created_at := created_at m;
     last_used := last_used m; is_valid := b; session_data := session_data m |}.

Definition wf_metadata (m : SessionMetadata) : Prop :=
  wf_pyobj (user_id m) = true /\ wf_pyobj (site_name m) = true /\
  wf_pyobj (is_valid m) = true /\ wf_pyobj (session_data m) = true /\
  valid_datetime (created_at m) /\ valid_datetime (last_used m).

(** ** Path texts *)

(** [c in s] for a single character. *)
Fixpoint has_char (c : ascii) (s : string) : bool :=
  match s with
  | EmptyString => false
  | String a s' => Ascii.eqb a c || has_char c s'
  end.

(** [s.split(sep)] for a one-character separator. *)
Fixpoint split_on (sep : ascii) (s : string) : list string :=
  match s with
  | EmptyString => [""]
  | String a s' =>
      if Ascii.eqb a sep then "" :: split_on sep s'
      else match split_on sep s' with
           | part :: parts => String a part :: parts
           | [] => [String a ""]
           end
  end.

(** The components pathlib keeps of a path text: the pieces between
    slashes that are neither empty nor a single dot. *)
Definition components (s : string) : list string :=
  List.filter (fun c => negb (String.eqb c "") && negb (String.eqb c "."))
    (split_on "/" s).

Fixpoint join_path (cs : list string) : string :=
  match cs with
  | [] => ""
  | [c] => c
  | c :: cs' => c +:+ "/" +:+ join_path cs'
  end.

(** The root pathlib gives a path text: "//" when it starts with exactly
    two slashes, "/" when it starts with any other number of them, none
    when it starts with no slash. *)
Definition root_of (s : string) : string :=
  match s with
  | String c1 s1 =>
      if Ascii.eqb c1 "/" then
        match s1 with
        | String c2 s2 =>
            if Ascii.eqb c2 "/" then
              match s2 with
              | String c3 _ => if Ascii.eqb c3 "/" then "/" else "//"
              | EmptyString => "//"
              end
            else "/"
        | EmptyString => "/"
        end
      else ""
  | EmptyString => ""
  end.

(** [str(Path(base) / child)] for a relative [base] in normal form: a
    child that starts with a slash replaces the base, and the child's
    empty and dot components are dropped. A ".." component is kept. *)
Definition path_join (base child : string) : string :=
  match root_of child with
  | EmptyString =>
      match components child with
      | [] => base
      | cs => base +:+ "/" +:+ join_path cs
      end
  | root => root +:+ join_path (components child)
  end.

(** A path text made of slashes only. *)
Fixpoint all_slashes (s : string) : bool :=
  match s with
  | EmptyString => true
  | String c s' => Ascii.eqb c "/" && all_slashes s'
  end.

(** The directories above the one a path text names: its prefixes that
    end before a slash, the nearest last; a root is not listed. [pre] is
    the part of the text already read. *)
Fixpoint ancestors_from (pre s : string) : list string :=
  match s with
  | EmptyString => []
  | String c s' =>
      (if Ascii.eqb c "/" && negb (all_slashes pre) then [pre] else [])
      ++ ancestors_from (pre +:+ String c "") s'
  end.

Definition ancestors (d : string) : list string := ancestors_from "" d.

(** [k] names the directory [d] or a directory below it. *)
Definition in_tree (d k : string) : bool :=
  String.eqb k d || String.prefix (d +:+ "/") k.

(** ** The disk *)

Record file := { f_content : string; f_mode : Z }.

Abbreviation filesystem := (gmap string (gmap string file)).

(** A file path is the directory that holds it and its name. *)
Definition path : Type := string * string.

(** Mode of a file created by [open(p, 'w')]: 0o666 under umask 0o022. *)
Definition default_mode : Z := 420.

Definition dir_exists (fs : filesystem) (d : string) : bool :=
  bool_decide (is_Some (fs !! d)).

(** [os.mkdir] that accepts an existing directory. *)
Definition mkdir_one (d : string) (fs : filesystem) : filesystem :=
  match fs !! d with
  | Some _ => fs
  | None => <[d := ∅]> fs
  end.

(** [Path.mkdir(parents=True, exist_ok=True)]: the missing directories
    above [d] are made first, then [d] itself. *)
Definition mkdir (d : string) (fs : filesystem) : filesystem :=
  fold_left (fun acc a => mkdir_one a acc) (ancestors d ++ [d]) fs.

(** [shutil.rmtree]: the directory goes with everything below it. *)
Definition rmtree (d : string) (fs : filesystem) : filesystem :=
  filter (fun entry => in_tree d entry.1 = false) fs.

Definition lookup_file (fs : filesystem) (p : path) : option file :=
  match fs !! p.1 with
  | Some dir => dir !! p.2
  | None => None
  end.

Definition read_file (fs : filesystem) (p : path) : option string :=
  f_content <$> lookup_file fs p.

Definition file_exists (fs : filesystem) (p : path) : bool :=
  bool_decide (is_Some (lookup_file fs p)).

(** [open(p, 'w')]: creates the file or truncates it, keeping its mode. *)
Definition open_w (p : path) (fs : filesystem) : filesystem :=
  match fs !! p.1 with
  | Some dir =>
      let mode := match dir !! p.2 with Some f => f_mode f | None => default_mode end in
      <[p.1 := <[p.2 := {| f_content := ""; f_mode := mode |}]> dir]> fs
  | None => fs
  end.

(** [f.write(data)] on a file opened for writing: appends to what was
    written since the open. *)
Definition write_str (p : path) (data : string) (fs : filesystem) : filesystem :=
  match fs !! p.1 with
  | Some dir =>
      match dir !! p.2 with
      | Some f =>
          <[p.1 := <[p.2 := {| f_content := f_content f +:+ data; f_mode := f_mode f |}]> dir]> fs
      | None => fs
      end
  | None => fs
  end.

(** [os.chmod] *)
Definition chmod (p : path) (mode : Z) (fs : filesystem) : filesystem :=
  match fs !! p.1 with
  | Some dir =>
      match dir !! p.2 with
      | Some f => <[p.1 := <[p.2 := {| f_content := f_content f; f_mode := mode |}]> dir]> fs
      | None => fs
      end
  | None => fs
  end.

(** The directory entry a save starts from, and the mode its file keeps. *)
Definition dir_before (fs : filesystem) (p : path) : gmap string file :=
  default ∅ (fs !! p.1).

Definition mode_before (fs : filesystem) (p : path) : Z :=
  match lookup_file fs p with Some f => f_mode f | None => default_mode end.

Definition run_steps (steps : list (filesystem -> filesystem)) (fs : filesystem) : filesystem :=
  fold_left (fun acc step => step acc) steps fs.

(** ** Expiration policy *)

(** [now] is the value of the [datetime.now()] call in the body. [None] is
    the [OverflowError] of [last_used + timedelta(..)]. *)
Definition _is_session_expired (metadata : SessionMetadata) (now : datetime)
  : option bool :=
  if negb (truthy (is_valid metadata)) then Some true
  else
    match datetime_add (last_used metadata) (timedelta_hours SESSION_TIMEOUT_HOURS) with
    | Some expiry_time => Some (expiry_time <? now)
    | None => None
    end.

Section Store.
Context {L : PyLibs}.

(** ** Session identity and directory scheme *)

Definition _get_session_dir (user site : string) : string :=
  let session_hash := String.substring 0 16 (sha256_hexdigest (user +:+ ":" +:+ site)) in
  path_join SESSIONS_DIR (user +:+ "_" +:+ session_hash +:+ "_" +:+ site).

Definition _get_metadata_file (user site : string) : path :=
  (_get_session_dir user site, "session_metadata.json").

(** The directory name of a key is flat when it holds no slash: pathlib
    then keeps it as it is, one component below the sessions directory.
    With slashes in an id the name is split, normalised, and may lead
    out of the sessions directory or into another session's directory. *)
Definition flat_key (user site : string) : Prop :=
  has_char "/" (user +:+ "_" +:+
                String.substring 0 16 (sha256_hexdigest (user +:+ ":" +:+ site)) +:+
                "_" +:+ site) = false.

Definition _encrypt_data (iv data : string) : string := fernet_encrypt iv data.
Definition _decrypt_data (encrypted_data : string) : option string :=
  fernet_decrypt encrypted_data.

(** ** Metadata store *)

(** [asdict(metadata)] with the two timestamps replaced by ISO strings. *)
Definition metadata_dict (m : SessionMetadata) : pyobj :=
  PDict [ ("user_id", user_id m); ("site_name", site_name m);
          ("created_at", PStr (isoformat (created_at m)));
          ("last_used", PStr (isoformat (last_used m)));
          ("is_valid", is_valid m); ("session_data", session_data m) ].

(** The text [json.dump] writes into the metadata file. *)
Definition metadata_file_text (iv : string) (m : SessionMetadata) : string :=
  let encrypted_data := _encrypt_data iv (json_dumps (metadata_dict m)) in
  json_dumps (PDict [("encrypted_metadata", PStr encrypted_data)]).

(** The writes of [_save_session_metadata], in order. [json.dump] writes
    into a file that [open(.., 'w')] has already truncated; the text
    reaches the file piece by piece, at worst one character at a time. *)
Definition save_steps (user site : string) (text : string)
  : list (filesystem -> filesystem) :=
  let metadata_file := _get_metadata_file user site in
  [mkdir metadata_file.1; open_w metadata_file]
  ++ map (fun c => write_str metadata_file (String c "")) (list_ascii_of_string text)
  ++ [chmod metadata_file 384].

Definition _save_session_metadata (fs : filesystem) (user site : string)
    (metadata : SessionMetadata) (iv : string) : filesystem :=
  run_steps (save_steps user site (metadata_file_text iv metadata)) fs.


Definition metadata_fields : list string :=
  ["user_id"; "site_name"; "created_at"; "last_used"; "is_valid"; "session_data"].

(** [datetime.fromisoformat(metadata_dict[k])]; [None] stands for the
    [KeyError], [TypeError] or [ValueError] it raises. *)
Definition parse_timestamp (d : list (string * pyobj)) (k : string) : option datetime :=
  match dict_get d k with
  | Some (PStr s) => fromisoformat s
  | _ => None
  end.

(** The two timestamp assignments followed by the keyword-argument call
    of the [SessionMetadata] constructor on the dict: [user_id],
    [site_name] and the timestamps are required, [is_valid] and
    [session_data] have defaults, any other key is a [TypeError]. The
    constructor does not check the types of the values it stores. *)
Definition metadata_of_dict (v : pyobj) : option SessionMetadata :=
  match v with
  | PDict d =>
      match parse_timestamp d "created_at", parse_timestamp d "last_used" with
      | Some c, Some l =>
          if forallb (fun k => existsb (String.eqb k) metadata_fields) (map fst d) then
            match dict_get d "user_id", dict_get d "site_name" with
            | Some u, Some s =>
                Some {| user_id := u; site_name := s; created_at := c; last_used := l;
                        is_valid := default (PBool true) (dict_get d "is_valid");
                        session_data := default PNone (dict_get d "session_data") |}
            | _, _ => None
            end
          else None
      | _, _ => None
      end
  | _ => None
  end.

(** [data["encrypted_metadata"]] followed by [.encode()]: the value must
    be a string stored under that key of a dict. *)
Definition encrypted_field (data : pyobj) : option string :=
  match data with
  | PDict d => match dict_get d "encrypted_metadata" with
               | Some (PStr token) => Some token
               | _ => None
               end
  | _ => None
  end.

(** The body of the [try] of [_load_session_metadata]. *)
Definition decode_metadata_text (text : string) : option SessionMetadata :=
  match json_loads text with
  | Some data =>
      match encrypted_field data with
      | Some encrypted_data =>
          match _decrypt_data encrypted_data with
          | Some decrypted_data =>
              match json_loads decrypted_data with
              | Some metadata_dict => metadata_of_dict metadata_dict
              | None => None
              end
          | None => None
          end
      | None => None
      end
  | None => None
  end.

(** [None] is Python's [None]: the function returns it both when the file
    does not exist and from its [except Exception] handler. *)
Definition _load_session_metadata (fs : filesystem) (user site : string)
  : option SessionMetadata :=
  let metadata_file := _get_metadata_file user site in
  if file_exists fs metadata_file then
    match read_file fs metadata_file with
    | Some text => decode_metadata_text text
    | None => None
    end
  else None.

End Store.

(** ** Exceptions and the automation engine *)

(** What a call into a library or into the automation engine does: it
    returns, or it raises an exception [e] with [str(e) = msg]. *)
Inductive outcome (A : Type) : Type :=
  | Returns (a : A)
  | Throws (msg : string).
Arguments Returns {A} a.
Arguments Throws {A} msg.

Inductive exn : Type :=
  | HTTPException (status_code : Z) (detail : string)
  (** an exception no handler of the method catches *)
  | Uncaught (msg : string).

Inductive result (A : Type) : Type :=
  | Ok (a : A)
  | Raise (e : exn).
Arguments Ok {A} a.
Arguments Raise {A} e.

(** [needle in s] *)
Fixpoint contains (needle s : string) : bool :=
  String.prefix needle s ||
  match s with
  | EmptyString => false
  | String _ s' => contains needle s'
  end.

(** A browser context is known by its handle. *)
Definition context := nat.

Record manager := {
  fs : filesystem;
  (** [self.active_sessions] *)
  active_sessions : gmap string context;
  (** whether [self.playwright] and [self.browser] are set *)
  playwright : bool;
  browser : bool;
  (** engine side: the contexts opened and not closed since *)
  open_contexts : gset context;
  next_context : context
}.

Definition with_fs (f : filesystem) (s : manager) : manager :=
  {| fs := f; active_sessions := active_sessions s; playwright := playwright s;
     browser := browser s; open_contexts := open_contexts s;
     next_context := next_context s |}.

Definition with_active (a : gmap string context) (s : manager) : manager :=
  {| fs := fs s; active_sessions := a; playwright := playwright s;
     browser := browser s; open_contexts := open_contexts s;
     next_context := next_context s |}.

Definition with_browser (pw br : bool) (s : manager) : manager :=
  {| fs := fs s; active_sessions := active_sessions s; playwright := pw;
     browser := br; open_contexts := open_contexts s;
     next_context := next_context s |}.

Definition with_contexts (o : gset context) (n : context) (s : manager) : manager :=
  {| fs := fs s; active_sessions := active_sessions s; playwright := playwright s;
     browser := browser s; open_contexts := o; next_context := n |}.

(** A manager right after [__init__], started on the disk [disk]: nothing
    is pending and the engine is not started. *)
Definition start_manager (disk : filesystem) : manager :=
  {| fs := disk; active_sessions := ∅; playwright := false; browser := false;
     open_contexts := ∅; next_context := 0%nat |}.

Definition init_manager : manager := start_manager ∅.

Record setup_env := {
  start_res : outcome unit;     (* async_playwright().start() *)
  launch_res : outcome unit     (* chromium.launch(..) *)
}.

Definition _setup_playwright (e : setup_env) (s : manager) : outcome unit * manager :=
  if negb (playwright s) then
    match start_res e with
    | Throws msg => (Throws msg, s)
    | Returns _ =>
        let s1 := with_browser true (browser s) s in
        match launch_res e with
        | Throws msg => (Throws msg, s1)
        | Returns _ => (Returns tt, with_browser true true s1)
        end
    end
  else (Returns tt, s).

(** [self.browser.new_context(..)]; with [self.browser] unset the attribute
    access itself raises. *)
Definition new_context (o : outcome unit) (s : manager) : outcome context * manager :=
  if browser s then
    match o with
    | Returns _ =>
        (Returns (next_context s),
         with_contexts ({[next_context s]} ∪ open_contexts s) (S (next_context s)) s)
    | Throws msg => (Throws msg, s)
    end
  else (Throws "'NoneType' object has no attribute 'new_context'", s).

(** [context.close()] *)
Definition close_context (c : context) (o : outcome unit) (s : manager)
  : outcome unit * manager :=
  match o with
  | Returns _ => (Returns tt, with_contexts (open_contexts s ∖ {[c]}) (next_context s) s)
  | Throws msg => (Throws msg, s)
  end.

(** What the page of a context answers during one action. *)
Record page_env := {
  pg_goto : outcome unit;
  pg_wait : outcome unit;          (* wait_for_load_state('networkidle') *)
  pg_title : outcome string;
  pg_url : string;
  pg_screenshot : outcome unit;
  pg_now : datetime                (* datetime.now() of the screenshot name *)
}.

(** What the engine answers during one call of each method. *)
Record create_env := {
  ce_setup : setup_env;
  ce_new_context : outcome unit;
  ce_new_page : outcome unit;
  ce_goto : outcome unit
}.

Record confirm_env := {
  cf_has_page : bool;              (* context.pages is not empty *)
  cf_new_page : outcome unit;
  cf_url : string;                 (* page.url *)
  cf_now_created : datetime;       (* the three datetime.now() calls *)
  cf_now_used : datetime;
  cf_now_confirmed : datetime;
  cf_iv : string;
  cf_close : outcome unit
}.

Record execute_env := {
  ex_now_check : datetime;         (* datetime.now() of the expiry check *)
  ex_setup : setup_env;
  ex_new_context : outcome unit;
  ex_new_page : outcome unit;
  ex_page : page_env;
  ex_now_used : datetime;          (* datetime.now() stored in last_used *)
  ex_iv : string;
  ex_close : outcome unit;
  ex_now_result : datetime;        (* datetime.now() of the returned timestamp *)
  ex_iv_invalid : string           (* IV of the save in the handler *)
}.

Section Manager.
Context {L : PyLibs}.

(** ** Session lifecycle *)

Definition create_session (user site login_url : string) (e : create_env) (s : manager)
  : result pyobj * manager :=
  match _setup_playwright (ce_setup e) s with
  | (Throws msg, s1) => (Raise (Uncaught msg), s1)
  | (Returns _, s1) =>
      let session_dir := _get_session_dir user site in
      let s2 := with_fs (mkdir session_dir (fs s1)) s1 in
      (* the [except Exception] handler *)
      let handler (msg : string) (s' : manager) : result pyobj * manager :=
        (Raise (HTTPException 500 ("Failed to create session: " +:+ msg)),
         if dir_exists (fs s') session_dir
         then with_fs (rmtree session_dir (fs s')) s' else s') in
      match new_context (ce_new_context e) s2 with
      | (Throws msg, s3) => handler msg s3
      | (Returns context, s3) =>
          match ce_new_page e with
          | Throws msg => handler msg s3
          | Returns _ =>
              match ce_goto e with
              | Throws msg => handler msg s3
              | Returns _ =>
                  let session_key := user +:+ ":" +:+ site in
                  let s4 := with_active (<[session_key := context]> (active_sessions s3)) s3 in
                  (Ok (PDict [
                     ("status", PStr "session_created");
                     ("message", PStr ("Browser session created for " +:+ user
                                        +:+ ". Please complete login manually."));
                     ("session_dir", PStr session_dir);
                     ("next_step", PStr ("Call /confirm-login/" +:+ user +:+ "/" +:+ site
                                          +:+ " when login is complete")) ]),
                   s4)
              end
          end
      end
  end.

Definition confirm_login (user site : string) (e : confirm_env) (s : manager)
  : result pyobj * manager :=
  let session_key := user +:+ ":" +:+ site in
  match active_sessions s !! session_key with
  | None => (Raise (HTTPException 404 "No active session found"), s)
  | Some context =>
      let handler (msg : string) (s' : manager) : result pyobj * manager :=
        (Raise (HTTPException 500 ("Failed to confirm login: " +:+ msg)), s') in
      match (if cf_has_page e then Returns tt else cf_new_page e) with
      | Throws msg => handler msg s
      | Returns _ =>
          let current_url := cf_url e in
          let metadata :=
            {| user_id := PStr user; site_name := PStr site;
               created_at := cf_now_created e; last_used := cf_now_used e;
               is_valid := PBool true;
               session_data :=
                 PDict [ ("login_url", PStr current_url);
                         ("confirmed_at", PStr (isoformat (cf_now_confirmed e))) ] |} in
          let s1 := with_fs (_save_session_metadata (fs s) user site metadata (cf_iv e)) s in
          match close_context context (cf_close e) s1 with
          | (Throws msg, s2) => handler msg s2
          | (Returns _, s2) =>
              let s3 := with_active (delete session_key (active_sessions s2)) s2 in
              (Ok (PDict [
                 ("status", PStr "login_confirmed");
                 ("message", PStr ("Session saved successfully for " +:+ user));
                 ("current_url", PStr current_url);
                 ("session_saved", PBool true) ]),
               s3)
          end
      end
  end.

Definition delete_session (user site : string) (s : manager) : bool * manager :=
  let session_dir := _get_session_dir user site in
  if dir_exists (fs s) session_dir
  then (true, with_fs (rmtree session_dir (fs s)) s)
  else (false, s).

(** ** Action dispatcher *)

(** [action_data.get(k, dflt)] *)
Definition get_or (action_data : list (string * pyobj)) (k : string) (dflt : pyobj) : pyobj :=
  default dflt (dict_get action_data k).

Definition _perform_action (pg : page_env) (action_type : string)
    (action_data : list (string * pyobj)) : outcome pyobj :=
  if String.eqb action_type "get_profile" then
    match pg_goto pg with
    | Throws msg => Throws msg
    | Returns _ =>
        match pg_wait pg with
        | Throws msg => Throws msg
        | Returns _ =>
            match pg_title pg with
            | Throws msg => Throws msg
            | Returns title =>
                Returns (PDict [ ("page_title", PStr title);
                                 ("current_url", PStr (pg_url pg));
                                 ("screenshot_taken", PBool false) ])
            end
        end
    end
  else if String.eqb action_type "post_message" then
    let message := get_or action_data "message" (PStr "") in
    if negb (truthy message) then Throws "Message content is required"
    else
      match pg_goto pg with
      | Throws msg => Throws msg
      | Returns _ =>
          match pg_wait pg with
          | Throws msg => Throws msg
          | Returns _ =>
              Returns (PDict [ ("message", PStr "Post functionality would be implemented here");
                               ("content", message);
                               ("posted", PBool false) ])
          end
      end
  else if String.eqb action_type "screenshot" then
    let screenshot_path := "screenshot_" +:+ strftime_compact (pg_now pg) +:+ ".png" in
    match pg_screenshot pg with
    | Throws msg => Throws msg
    | Returns _ =>
        match pg_title pg with
        | Throws msg => Throws msg
        | Returns title =>
            Returns (PDict [ ("screenshot_path", PStr screenshot_path);
                             ("page_title", PStr title);
                             ("current_url", PStr (pg_url pg)) ])
        end
    end
  else Throws ("Unknown action type: " +:+ action_type).

(** The [except Exception as e] handler of [execute_action], entered with
    the metadata object as the [try] body left it. *)
Definition execute_handler (user site : string) (metadata : SessionMetadata)
    (iv msg : string) (s : manager) : result pyobj * manager :=
  if contains "net::ERR_" msg || contains "Session expired" msg then
    let metadata' := set_is_valid (PBool false) metadata in
    (Raise (HTTPException 401 "Session invalid. Please re-login."),
     with_fs (_save_session_metadata (fs s) user site metadata' iv) s)
  else (Raise (HTTPException 500 ("Action failed: " +:+ msg)), s).

(** [action_data] is the optional dict argument: [None] is Python's [None]. *)
Definition execute_action (user site action_type : string)
    (action_data : option (list (string * pyobj))) (e : execute_env) (s : manager)
  : result pyobj * manager :=
  match _load_session_metadata (fs s) user site with
  | None => (Raise (HTTPException 404 "Session not found"), s)
  | Some metadata =>
      match _is_session_expired metadata (ex_now_check e) with
      | None => (Raise (Uncaught "date value out of range"), s)
      | Some true => (Raise (HTTPException 401 "Session expired. Please re-login."), s)
      | Some false =>
          let session_dir := _get_session_dir user site in
          if negb (dir_exists (fs s) session_dir)
          then (Raise (HTTPException 404 "Session directory not found"), s)
          else
            match _setup_playwright (ex_setup e) s with
            | (Throws msg, s1) => (Raise (Uncaught msg), s1)
            | (Returns _, s1) =>
                let handler := execute_handler user site in
                match new_context (ex_new_context e) s1 with
                | (Throws msg, s2) => handler metadata (ex_iv_invalid e) msg s2
                | (Returns context, s2) =>
                    match ex_new_page e with
                    | Throws msg => handler metadata (ex_iv_invalid e) msg s2
                    | Returns _ =>
                        match _perform_action (ex_page e) action_type
                                (default [] action_data) with
                        | Throws msg => handler metadata (ex_iv_invalid e) msg s2
                        | Returns res =>
                            let metadata1 := set_last_used (ex_now_used e) metadata in
                            let s3 := with_fs (_save_session_metadata (fs s2) user site
                                                 metadata1 (ex_iv e)) s2 in
                            match close_context context (ex_close e) s3 with
                            | (Throws msg, s4) => handler metadata1 (ex_iv_invalid e) msg s4
                            | (Returns _, s4) =>
                                (Ok (PDict [
                                   ("status", PStr "action_completed");
                                   ("action_type", PStr action_type);
                                   ("result", res);
                                   ("timestamp", PStr (isoformat (ex_now_result e))) ]),
                                 s4)
                            end
                        end
                    end
                end
            end
      end
  end.

(** The [try] block of [execute_action], entered in state [s1], raises an
    exception whose text is [msg]: from opening the context, opening the
    page, the action itself, or closing the context. *)
Inductive try_throws (action_type : string) (action_data : option (list (string * pyobj)))
    (e : execute_env) (s1 : manager) : string -> Prop :=
  | throws_new_context (msg : string) (s2 : manager) :
      new_context (ex_new_context e) s1 = (Throws msg, s2) ->
      try_throws action_type action_data e s1 msg
  | throws_new_page (msg : string) (c : context) (s2 : manager) :
      new_context (ex_new_context e) s1 = (Returns c, s2) ->
      ex_new_page e = Throws msg ->
      try_throws action_type action_data e s1 msg
  | throws_action (msg : string) (c : context) (s2 : manager) :
      new_context (ex_new_context e) s1 = (Returns c, s2) ->
      ex_new_page e = Returns tt ->
      _perform_action (ex_page e) action_type (default [] action_data) = Throws msg ->
      try_throws action_type action_data e s1 msg
  | throws_close (msg : string) (c : context) (s2 : manager) (res : pyobj) :
      new_context (ex_new_context e) s1 = (Returns c, s2) ->
      ex_new_page e = Returns tt ->
      _perform_action (ex_page e) action_type (default [] action_data) = Returns res ->
      ex_close e = Throws msg ->
      try_throws action_type action_data e s1 msg.

(** The states the service can be in: started on some disk, then any
    sequence of calls, whatever their arguments and the engine's answers. *)
Inductive reachable : manager -> Prop :=
  | reach_start (disk : filesystem) : reachable (start_manager disk)
  | reach_create (s : manager) (user site login_url : string) (e : create_env) :
      reachable s -> reachable (create_session user site login_url e s).2
  | reach_confirm (s : manager) (user site : string) (e : confirm_env) :
      reachable s -> reachable (confirm_login user site e s).2
  | reach_execute (s : manager) (user site action_type : string)
      (action_data : option (list (string * pyobj))) (e : execute_env) :
      reachable s -> reachable (execute_action user site action_type action_data e s).2
  | reach_delete (s : manager) (user site : string) :
      reachable s -> reachable (delete_session user site s).2.

Definition engine_up_if_pending (s : manager) : Prop :=
  active_sessions s = ∅ \/ (playwright s = true /\ browser s = true).

(** Every registered context is open, handles are handed out in
    increasing order, and no two keys share a context. *)
Definition registry_inv (registry : gmap string context) (opened : gset context)
    (next : context) : Prop :=
  (forall k c, registry !! k = Some c -> c ∈ opened) /\
  (forall c, c ∈ opened -> (c < next)%nat) /\
  (forall k k' c, registry !! k = Some c -> registry !! k' = Some c -> k = k').

Definition registry_ok (s : manager) : Prop :=
  registry_inv (active_sessions s) (open_contexts s) (next_context s).

(** One call of [execute_action] after the other on the same key, each
    with its own action and engine answers. *)
Fixpoint execute_all (user site : string)
    (calls : list (string * option (list (string * pyobj)) * execute_env)) (s : manager)
  : list (result pyobj) * manager :=
  match calls with
  | [] => ([], s)
  | (action_type, action_data, e) :: calls' =>
      let '(r, s1) := execute_action user site action_type action_data e s in
      let '(rs, s2) := execute_all user site calls' s1 in
      (r :: rs, s2)
  end.

End Manager.

(** ** A reference instance of the library interface

    Small executable stand-ins that satisfy [PyLibsLaws]: a JSON writer and
    reader for the fragment [pyobj] covers, a byte-masking cipher with a
    checksum, timestamps written as their microsecond count, and a
    polynomial digest. They show the contracts are consistent and let the
    service run on concrete inputs. *)
Module Ref.

Definition dquote : ascii := "034"%char.
Definition backslash : ascii := "092"%char.

(** *** Integers in decimal *)

Definition print_Z (z : Z) : string := NilZero.string_of_int (Z.to_int z).

Definition parse_Z (s : string) : option Z :=
  match NilZero.int_of_string s with
  | Some d => Some (Z.of_int d)
  | None => None
  end.

Definition is_num_char (c : ascii) : bool :=
  Ascii.eqb c "-" || ((48 <=? N_of_ascii c)%N && (N_of_ascii c <=? 57)%N).

(** The longest prefix made of sign and digit characters, and what follows. *)
Fixpoint span_num (s : string) : string * string :=
  match s with
  | EmptyString => ("", "")
  | String c s' =>
      if is_num_char c
      then let '(a, b) := span_num s' in (String c a, b)
      else ("", s)
  end.

(** A number can be read back when what follows cannot continue it. *)
Definition follow_ok (rest : string) : bool :=
  match rest with
  | EmptyString => true
  | String c _ => negb (is_num_char c)
  end.

(** *** String literals *)

Definition needs_escape (c : ascii) : bool := Ascii.eqb c dquote || Ascii.eqb c backslash.

Fixpoint escape (s : string) : string :=
  match s with
  | EmptyString => ""
  | String c s' =>
      if needs_escape c then String backslash (String c (escape s'))
      else String c (escape s')
  end.

Definition quote (s : string) : string :=
  String dquote (escape s +:+ String dquote "").

(** Reads a literal after its opening quote, up to the closing one. *)
Fixpoint parse_string_body (s : string) : option (string * string) :=
  match s with
  | EmptyString => None
  | String c s' =>
      if Ascii.eqb c dquote then Some ("", s')
      else if Ascii.eqb c backslash then
        match s' with
        | String d s'' =>
            if needs_escape d then
              match parse_string_body s'' with
              | Some (a, r) => Some (String d a, r)
              | None => None
              end
            else None
        | EmptyString => None
        end
      else
        match parse_string_body s' with
        | Some (a, r) => Some (String c a, r)
        | None => None
        end
  end.

(** *** Values *)

Fixpoint dumps (v : pyobj) : string :=
  match v with
  | PNone => "null"
  | PBool true => "true"
  | PBool false => "false"
  | PInt z => print_Z z
  | PStr s => quote s
  | PList [] => "[]"
  | PList (x :: l) =>
      "[" +:+ dumps x +:+
      (fix tail (l : list pyobj) : string :=
         match l with
         | [] => "]"
         | y :: l' => ", " +:+ dumps y +:+ tail l'
         end) l
  | PDict [] => "{}"
  | PDict ((k, x) :: d) =>
      "{" +:+ quote k +:+ ": " +:+ dumps x +:+
      (fix tail (d : list (string * pyobj)) : string :=
         match d with
         | [] => "}"
         | (k', y) :: d' => ", " +:+ quote k' +:+ ": " +:+ dumps y +:+ tail d'
         end) d
  end.

Definition dumps_elems : list pyobj -> string :=
  fix tail (l : list pyobj) : string :=
    match l with
    | [] => "]"
    | y :: l' => ", " +:+ dumps y +:+ tail l'
    end.

Definition dumps_members : list (string * pyobj) -> string :=
  fix tail (d : list (string * pyobj)) : string :=
    match d with
    | [] => "}"
    | (k', y) :: d' => ", " +:+ quote k' +:+ ": " +:+ dumps y +:+ tail d'
    end.

(** [s] without its prefix [p], when it has it. *)
Fixpoint strip_prefix (p s : string) : option string :=
  match p with
  | EmptyString => Some s
  | String c p' =>
      match s with
      | String c' s' => if Ascii.eqb c c' then strip_prefix p' s' else None
      | EmptyString => None
      end
  end.

Fixpoint parse_value (fuel : nat) (s : string) : option (pyobj * string) :=
  match fuel with
  | O => None
  | S f =>
      match s with
      | EmptyString => None
      | String c s' =>
          if is_num_char c then
            let '(digits, r) := span_num s in
            match parse_Z digits with
            | Some z => Some (PInt z, r)
            | None => None
            end
          else if Ascii.eqb c "n" then
            match strip_prefix "ull" s' with Some r => Some (PNone, r) | None => None end
          else if Ascii.eqb c "t" then
            match strip_prefix "rue" s' with Some r => Some (PBool true, r) | None => None end
          else if Ascii.eqb c "f" then
            match strip_prefix "alse" s' with Some r => Some (PBool false, r) | None => None end
          else if Ascii.eqb c dquote then
            match parse_string_body s' with
            | Some (a, r) => Some (PStr a, r)
            | None => None
            end
          else if Ascii.eqb c "[" then
            match strip_prefix "]" s' with
            | Some r => Some (PList [], r)
            | None =>
                match parse_value f s' with
                | Some (x, r) =>
                    match parse_elems f r with
                    | Some (l, r') => Some (PList (x :: l), r')
                    | None => None
                    end
                | None => None
                end
            end
          else if Ascii.eqb c "{" then
            match strip_prefix "}" s' with
            | Some r => Some (PDict [], r)
            | None =>
                match parse_member f s' with
                | Some (kx, r) =>
                    match parse_members f r with
                    | Some (d, r') => Some (PDict (kx :: d), r')
                    | None => None
                    end
                | None => None
                end
            end
          else None
      end
  end
with parse_elems (fuel : nat) (s : string) : option (list pyobj * string) :=
  match fuel with
  | O => None
  | S f =>
      match strip_prefix "]" s with
      | Some r => Some ([], r)
      | None =>
          match strip_prefix ", " s with
          | Some r =>
              match parse_value f r with
              | Some (y, r1) =>
                  match parse_elems f r1 with
                  | Some (l, r2) => Some (y :: l, r2)
                  | None => None
                  end
              | None => None
              end
          | None => None
          end
      end
  end
with parse_member (fuel : nat) (s : string) : option ((string * pyobj) * string) :=
  match fuel with
  | O => None
  | S f =>
      match strip_prefix (String dquote "") s with
      | Some r =>
          match parse_string_body r with
          | Some (k, r1) =>
              match strip_prefix ": " r1 with
              | Some r2 =>
                  match parse_value f r2 with
                  | Some (x, r3) => Some ((k, x), r3)
                  | None => None
                  end
              | None => None
              end
          | None => None
          end
      | None => None
      end
  end
with parse_members (fuel : nat) (s : string) : option (list (string * pyobj) * string) :=
  match fuel with
  | O => None
  | S f =>
      match strip_prefix "}" s with
      | Some r => Some ([], r)
      | None =>
          match strip_prefix ", " s with
          | Some r =>
              match parse_member f r with
              | Some (kx, r1) =>
                  match parse_members f r1 with
                  | Some (d, r2) => Some (kx :: d, r2)
                  | None => None
                  end
              | None => None
              end
          | None => None
          end
      end
  end.

Definition loads (s : string) : option pyobj :=
  match parse_value (S (S (String.length s))) s with
  | Some (v, EmptyString) => if wf_pyobj v then Some v else None
  | _ => None
  end.

(** *** Cipher *)

Definition ascii_xor (a b : ascii) : ascii :=
  match a, b with
  | Ascii a0 a1 a2 a3 a4 a5 a6 a7, Ascii b0 b1 b2 b3 b4 b5 b6 b7 =>
      Ascii (xorb a0 b0) (xorb a1 b1) (xorb a2 b2) (xorb a3 b3)
            (xorb a4 b4) (xorb a5 b5) (xorb a6 b6) (xorb a7 b7)
  end.

Fixpoint mask (k : ascii) (s : string) : string :=
  match s with
  | EmptyString => ""
  | String c s' => String (ascii_xor k c) (mask k s')
  end.

Fixpoint checksum (s : string) : N :=
  match s with
  | EmptyString => 7%N
  | String c s' => ((N_of_ascii c + 3 * checksum s') mod 256)%N
  end.

Definition secret : ascii := "Z"%char.

(** A token is a checksum byte, the first byte of the IV, and the
    plaintext masked with the secret and that byte. *)
Definition encrypt (iv data : string) : string :=
  let ivc := match iv with String c _ => c | EmptyString => "0"%char end in
  let body := String ivc (mask (ascii_xor secret ivc) data) in
  String (ascii_of_N (checksum body)) body.

Definition decrypt (token : string) : option string :=
  match token with
  | String tag (String ivc ct as body) =>
      if Ascii.eqb tag (ascii_of_N (checksum body))
      then Some (mask (ascii_xor secret ivc) ct)
      else None
  | _ => None
  end.

(** *** Timestamps and digest *)

Definition isoformat (d : datetime) : string := print_Z d.

Definition fromisoformat (s : string) : option datetime :=
  match parse_Z s with
  | Some z => if (0 <=? z) && (z <=? datetime_max) then Some z else None
  | None => None
  end.

Definition strftime_compact (d : datetime) : string := print_Z (d / 1000000).

Definition hex_digit (z : Z) : ascii :=
  match String.get (Z.to_nat z) "0123456789abcdef" with
  | Some c => c
  | None => "0"%char
  end.

Fixpoint hex (n : nat) (z : Z) : string :=
  match n with
  | O => ""
  | S n' => hex n' (z / 16) +:+ String (hex_digit (z mod 16)) ""
  end.

Fixpoint poly (s : string) (h : Z) : Z :=
  match s with
  | EmptyString => h
  | String c s' =>
      poly s' ((h * 6364136223846793005 + Z.of_N (N_of_ascii c) + 1442695040888963407) mod 2 ^ 256)
  end.

Definition hexdigest (s : string) : string := hex 64 (poly s (2 ^ 255 - 19)).

Definition libs : PyLibs :=
  Build_PyLibs hexdigest encrypt decrypt dumps loads isoformat fromisoformat
    strftime_compact.

End Ref.

(** Flips the lowest bit of the character at index [i]. *)
Fixpoint flip_byte (i : nat) (s : string) : string :=
  match s, i with
  | EmptyString, _ => ""
  | String c s', O => String (Ref.ascii_xor c "001"%char) s'
  | String c s', S i' => String c (flip_byte i' s')
  end.

(** ** What makes a stored metadata file unusable *)

Section Corruption.
Context {L : PyLibs}.

(** The decrypted dict cannot become a [SessionMetadata]: it is no dict, a
    required field is missing, a timestamp is not a parsable string, or a
    key is not a field of the record. *)
Inductive schema_invalid : pyobj -> Prop :=
  | not_a_dict (v : pyobj) :
      (forall d, v <> PDict d) -> schema_invalid v
  | missing_field (d : list (string * pyobj)) (k : string) :
      In k ["user_id"; "site_name"; "created_at"; "last_used"] ->
      dict_get d k = None -> schema_invalid (PDict d)
  | bad_timestamp (d : list (string * pyobj)) (k : string) (v : pyobj) :
      In k ["created_at"; "last_used"] -> dict_get d k = Some v ->
      (forall s, v = PStr s -> fromisoformat s = None) -> schema_invalid (PDict d)
  | unknown_field (d : list (string * pyobj)) (k : string) :
      In k (map fst d) -> ~ In k metadata_fields -> schema_invalid (PDict d).

(** The text of a metadata file is corrupt: it is not JSON, holds no
    token, its token does not decrypt (wrong key or tampering), or the
    plaintext is not the JSON of a valid metadata dict. *)
Inductive corrupt (text : string) : Prop :=
  | not_json :
      json_loads text = None -> corrupt text
  | no_token (data : pyobj) :
      json_loads text = Some data ->
      (forall d token, data = PDict d ->
         dict_get d "encrypted_metadata" <> Some (PStr token)) ->
      corrupt text
  | undecryptable (d : list (string * pyobj)) (token : string) :
      json_loads text = Some (PDict d) ->
      dict_get d "encrypted_metadata" = Some (PStr token) ->
      fernet_decrypt token = None -> corrupt text
  | plaintext_not_json (d : list (string * pyobj)) (token plain : string) :
      json_loads text = Some (PDict d) ->
      dict_get d "encrypted_metadata" = Some (PStr token) ->
      fernet_decrypt token = Some plain ->
      json_loads plain = None -> corrupt text
  | plaintext_schema_invalid (d : list (string * pyobj)) (token plain : string) (v : pyobj) :
      json_loads text = Some (PDict d) ->
      dict_get d "encrypted_metadata" = Some (PStr token) ->
      fernet_decrypt token = Some plain ->
      json_loads plain = Some v -> schema_invalid v -> corrupt text.

End Corruption.

(** ** Worked inputs *)

Module Demo.

Definition m : SessionMetadata :=
  {| user_id := PStr "u1"; site_name := PStr "siteA";
     created_at := 63800000000000000; last_used := 63800000000000001;
     is_valid := PBool true;
     session_data := PDict [("login_url", PStr "https://x/login")] |}.

(** A disk holding the saved metadata of ("u1", "siteA"). *)
Definition saved_disk : filesystem :=
  _save_session_metadata (L := Ref.libs) ∅ "u1" "siteA" m "iv".

(** The same disk after one byte of the stored token was flipped. *)
Definition tampered_disk : filesystem :=
  let p := _get_metadata_file (L := Ref.libs) "u1" "siteA" in
  match read_file saved_disk p with
  | Some text =>
      <[p.1 := {[ p.2 := {| f_content := flip_byte 40 text; f_mode := 384 |} ]}]> ∅
  | None => ∅
  end.

(** A second metadata value for the same key. *)
Definition m2 : SessionMetadata :=
  {| user_id := PStr "u1"; site_name := PStr "siteA";
     created_at := 63800000000000000; last_used := 63800003600000000;
     is_valid := PBool true;
     session_data := PDict [("login_url", PStr "https://x/home")] |}.

(** An engine on which every call succeeds. *)
Definition setup_ok : setup_env :=
  {| start_res := Returns tt; launch_res := Returns tt |}.

Definition create_ok : create_env :=
  {| ce_setup := setup_ok; ce_new_context := Returns tt;
     ce_new_page := Returns tt; ce_goto := Returns tt |}.

Definition confirm_ok : confirm_env :=
  {| cf_has_page := true; cf_new_page := Returns tt; cf_url := "https://x/home";
     cf_now_created := 63800000000000000; cf_now_used := 63800000000000003;
     cf_now_confirmed := 63800000000000007; cf_iv := "iv"; cf_close := Returns tt |}.

Definition page_ok : page_env :=
  {| pg_goto := Returns tt; pg_wait := Returns tt; pg_title := Returns "Feed";
     pg_url := "https://x/feed"; pg_screenshot := Returns tt;
     pg_now := 63800000060000000 |}.

(** A page whose navigation fails with a transport error. *)
Definition page_net_error : page_env :=
  {| pg_goto := Throws "Page.goto: net::ERR_CONNECTION_REFUSED at https://x/feed";
     pg_wait := Returns tt; pg_title := Returns "Feed";
     pg_url := "https://x/feed"; pg_screenshot := Returns tt;
     pg_now := 63800000060000000 |}.

(** One minute after the confirmation, every engine call succeeding. *)
Definition execute_ok (pg : page_env) : execute_env :=
  {| ex_now_check := 63800000060000000; ex_setup := setup_ok;
     ex_new_context := Returns tt; ex_new_page := Returns tt; ex_page := pg;
     ex_now_used := 63800000060000005; ex_iv := "iw"; ex_close := Returns tt;
     ex_now_result := 63800000060000009; ex_iv_invalid := "ix" |}.

Definition login_url : string := "https://x/login".

(** After [create("u1", "siteA")]: the key is pending. *)
Definition pending : manager :=
  (create_session (L := Ref.libs) "u1" "siteA" login_url create_ok init_manager).2.

(** After the confirmation that follows: the session is on disk. *)
Definition confirmed : manager :=
  (confirm_login (L := Ref.libs) "u1" "siteA" confirm_ok pending).2.

End Demo.

(** * The rest of the service

    The functions of [BrowserSessionManager] the sections above do not
    reach, and the HTTP routes that wrap its methods. *)

(** ** Text helpers *)

(** [s] without its prefix [p], when it starts with it. *)
Fixpoint after_prefix (p s : string) : option string :=
  match p with
  | EmptyString => Some s
  | String c p' =>
      match s with
      | String c' s' => if Ascii.eqb c c' then after_prefix p' s' else None
      | EmptyString => None
      end
  end.

(** The first component of a relative path. *)
Fixpoint first_component (s : string) : string :=
  match s with
  | EmptyString => ""
  | String c s' => if Ascii.eqb c "/" then "" else String c (first_component s')
  end.

(** ** Encryption key bootstrap *)



(** ** Engine shutdown *)

Record cleanup_env := {
  browser_close_res : outcome unit;   (* self.browser.close() *)
  stop_res : outcome unit             (* self.playwright.stop() *)
}.

(** [open_contexts] records the contexts the manager has not closed
    itself, so closing the browser leaves it as it is. *)
Definition _cleanup_playwright (e : cleanup_env) (s : manager) : outcome unit * manager :=
  let after_browser :=
    if browser s then
      match browser_close_res e with
      | Throws msg => (Throws msg, s)
      | Returns _ => (Returns tt, with_browser (playwright s) false s)
      end
    else (Returns tt, s) in
  match after_browser with
  | (Throws msg, s1) => (Throws msg, s1)
  | (Returns _, s1) =>
      if playwright s1 then
        match stop_res e with
        | Throws msg => (Throws msg, s1)
        | Returns _ => (Returns tt, with_browser false (browser s1) s1)
        end
      else (Returns tt, s1)
  end.

Section Rest.
Context {L : PyLibs}.


(** ** Listing *)

(** [SESSIONS_DIR.iterdir()]: the names of the entries of the sessions
    directory, each once, in no particular order. Every path of the disk
    is a directory, so [is_dir()] holds of each. *)
Definition entry_name (d : string) : option string :=
  match after_prefix (SESSIONS_DIR +:+ "/") d with
  | Some rest => Some (first_component rest)
  | None => None
  end.

Definition iterdir (fs : filesystem) : list string :=
  remove_dups (omap entry_name (elements (dom fs))).

(** One row of the listing. *)
Definition session_entry (m : SessionMetadata) (expired : bool) : pyobj :=
  PDict [ ("user_id", user_id m); ("site_name", site_name m);
          ("created_at", PStr (isoformat (created_at m)));
          ("last_used", PStr (isoformat (last_used m)));
          ("is_valid", is_valid m); ("is_expired", PBool expired) ].

(** The body of the loop of [list_sessions] for the entry [name]:
    [Ok None] when nothing is appended. [clock name] is the
    [datetime.now()] of the expiry check made for this entry. *)
Definition list_entry (fs : filesystem) (user : option string)
    (clock : string -> datetime) (name : string) : result (option pyobj) :=
  match split_on "_" name with
  | dir_user_id :: _ :: site :: _ =>
      if truthy (match user with Some u => PStr u | None => PNone end)
         && negb (String.eqb dir_user_id (default "" user))
      then Ok None
      else
        match _load_session_metadata fs dir_user_id site with
        | Some metadata =>
            match _is_session_expired metadata (clock name) with
            | Some expired => Ok (Some (session_entry metadata expired))
            | None => Raise (Uncaught "date value out of range")
            end
        | None => Ok None
        end
  | _ => Ok None
  end.

Fixpoint list_loop (fs : filesystem) (user : option string)
    (clock : string -> datetime) (names : list string) : result (list pyobj) :=
  match names with
  | [] => Ok []
  | name :: names' =>
      match list_entry fs user clock name with
      | Raise x => Raise x
      | Ok row =>
          match list_loop fs user clock names' with
          | Raise x => Raise x
          | Ok rows => Ok (match row with Some r => r :: rows | None => rows end)
          end
      end
  end.

Definition list_sessions (fs : filesystem) (user : option string)
    (clock : string -> datetime) : result (list pyobj) :=
  list_loop fs user clock (iterdir fs).

(** ** HTTP routes *)

Section Routes.
(** [str(e)] of an [HTTPException] with the given status and detail. *)
Variable http_str : Z -> string -> string.

Definition str_exn (x : exn) : string :=
  match x with
  | HTTPException status_code detail => http_str status_code detail
  | Uncaught msg => msg
  end.

(** Every route ends in [except Exception as e: raise
    HTTPException(status_code=500, detail=str(e))]. *)
Definition reraise (x : exn) : exn := HTTPException 500 (str_exn x).

Definition create_session_route (user site login_url : string) (e : create_env)
    (s : manager) : result pyobj * manager :=
  match create_session user site login_url e s with
  | (Ok d, s') => (Ok d, s')
  | (Raise x, s') => (Raise (reraise x), s')
  end.

Definition confirm_login_route (user site : string) (e : confirm_env) (s : manager)
  : result pyobj * manager :=
  match confirm_login user site e s with
  | (Ok d, s') => (Ok d, s')
  | (Raise x, s') => (Raise (reraise x), s')
  end.

(** The request model gives [action_data] the default [{}]. *)
Definition execute_action_route (user site action_type : string)
    (action_data : list (string * pyobj)) (e : execute_env) (s : manager)
  : result pyobj * manager :=
  match execute_action user site action_type (Some action_data) e s with
  | (Ok d, s') => (Ok d, s')
  | (Raise x, s') => (Raise (reraise x), s')
  end.

Definition list_sessions_route (user : option string) (clock : string -> datetime)
    (s : manager) : result pyobj :=
  match list_sessions (fs s) user clock with
  | Ok sessions => Ok (PDict [("sessions", PList sessions)])
  | Raise x => Raise (reraise x)
  end.

(** The 404 for a missing session is raised inside the route's own [try]. *)
Definition delete_session_route (user site : string) (s : manager)
  : result pyobj * manager :=
  match delete_session user site s with
  | (true, s') =>
      (Ok (PDict [("message", PStr ("Session deleted for " +:+ user +:+ ":" +:+ site))]), s')
  | (false, s') => (Raise (reraise (HTTPException 404 "Session not found")), s')
  end.

End Routes.

End Rest.

(** The status a client of the HTTP service sees: 200 for a returned
    value, the code of an [HTTPException], and 500 for any other
    exception. *)
Definition response_status {A : Type} (r : result A) : Z :=
  match r with
  | Ok _ => 200
  | Raise (HTTPException status_code _) => status_code
  | Raise (Uncaught _) => 500
  end.

(** ** More worked inputs *)

Module Tour.

(** What is stored for ("u1", "siteA") after the confirmation. *)
Definition stored : SessionMetadata :=
  default Demo.m (_load_session_metadata (L := Ref.libs) (fs Demo.confirmed) "u1" "siteA").



Definition cleanup_ok : cleanup_env :=
  {| browser_close_res := Returns tt; stop_res := Returns tt |}.

(** A confirmation whose [context.close()] fails. *)
Definition confirm_close_fails : confirm_env :=
  {| cf_has_page := true; cf_new_page := Returns tt; cf_url := "https://x/home";
     cf_now_created := 63800000000000000; cf_now_used := 63800000000000003;
     cf_now_confirmed := 63800000000000007; cf_iv := "iv";
     cf_close := Throws "Target closed" |}.

(** A login pending for the user "u:x" on the site "y". *)
Definition aliased_pending : manager :=
  (create_session (L := Ref.libs) "u:x" "y" Demo.login_url Demo.create_ok init_manager).2.

(** A page whose navigation times out. *)
Definition page_timeout : page_env :=
  {| pg_goto := Throws "Page.goto: Timeout 30000ms exceeded";
     pg_wait := Returns tt; pg_title := Returns "Feed";
     pg_url := "https://x/feed"; pg_screenshot := Returns tt;
     pg_now := 63800000060000000 |}.

(** Eight days after the confirmation. *)
Definition execute_late : execute_env :=
  {| ex_now_check := 63800691200000000; ex_setup := Demo.setup_ok;
     ex_new_context := Returns tt; ex_new_page := Returns tt; ex_page := Demo.page_ok;
     ex_now_used := 63800691200000005; ex_iv := "iw"; ex_close := Returns tt;
     ex_now_result := 63800691200000009; ex_iv_invalid := "ix" |}.

(** A clock that reads one minute after the confirmation at every entry. *)
Definition clock (name : string) : datetime := 63800000060000000.



(** The pending manager after the engine was shut down. *)
Definition after_cleanup : manager := (_cleanup_playwright cleanup_ok Demo.pending).2.

(** A successful execute on the confirmed session. *)
Definition executed : result pyobj * manager :=
  execute_action (L := Ref.libs) "u1" "siteA" "get_profile" None
    (Demo.execute_ok Demo.page_ok) Demo.confirmed.


End Tour.

Ltac fuel_step fuel :=
  destruct fuel as [|fuel]; [exfalso; simpl in *; lia|].

(** * Properties *)

(** ** Strings *)

Lemma str_app_nil_l (s : string) : "" +:+ s = s.
Proof. reflexivity. Qed.

Lemma str_app_cons (c : ascii) (s t : string) : String c s +:+ t = String c (s +:+ t).
Proof. reflexivity. Qed.

Lemma str_app_nil_r (s : string) : s +:+ "" = s.
Proof. induction s as [|c s IH]; [reflexivity|]. by rewrite str_app_cons, IH. Qed.

Lemma str_app_assoc (s t u : string) : (s +:+ t) +:+ u = s +:+ (t +:+ u).
Proof. induction s as [|c s IH]; [reflexivity|]. by rewrite !str_app_cons, IH. Qed.

Lemma str_length_app (s t : string) :
  String.length (s +:+ t) = (String.length s + String.length t)%nat.
Proof. induction s as [|c s IH]; [reflexivity|]. rewrite str_app_cons. simpl. by rewrite IH. Qed.

Lemma str_prefix_app (s t : string) : String.prefix s (s +:+ t) = true.
Proof.
  induction s as [|c s IH]; [by destruct t|].
  rewrite str_app_cons. simpl. by destruct (ascii_dec c c).
Qed.

(** ** The disk *)

Lemma run_steps_app (a b : list (filesystem -> filesystem)) (fs : filesystem) :
  run_steps (a ++ b) fs = run_steps b (run_steps a fs).
Proof. unfold run_steps. apply fold_left_app. Qed.

Lemma lookup_file_insert (fs : filesystem) (p : path) (dir : gmap string file) (f : file) :
  lookup_file (<[p.1 := <[p.2 := f]> dir]> fs) p = Some f.
Proof. unfold lookup_file. by rewrite !lookup_insert_eq. Qed.

(** Writing a text one character at a time appends it to the file. *)
Lemma write_chars (p : path) (cs : list ascii) :
  forall (fs : filesystem) (dir : gmap string file) (f : file),
    fs !! p.1 = Some dir -> dir !! p.2 = Some f ->
    run_steps (map (fun c => write_str p (String c "")) cs) fs =
    <[p.1 := <[p.2 := {| f_content := f_content f +:+ string_of_list_ascii cs;
                         f_mode := f_mode f |}]> dir]> fs.
Proof.
  induction cs as [|c cs IH]; intros fs dir f Hd Hf.
  - simpl. rewrite str_app_nil_r. destruct f as [content mode]. simpl.
    by rewrite (insert_id dir), (insert_id fs).
  - simpl. unfold run_steps in *. simpl.
    unfold write_str at 2. rewrite Hd, Hf.
    erewrite IH; [|apply lookup_insert_eq|apply lookup_insert_eq].
    simpl. rewrite !insert_insert_eq. by rewrite str_app_assoc.
Qed.


(** *** Making and removing directories *)

Lemma mkdir_one_default (a : string) (fs : filesystem) (k : string) :
  default ∅ (mkdir_one a fs !! k) = default ∅ (fs !! k).
Proof.
  unfold mkdir_one. destruct (fs !! a) eqn:Ha; [done|].
  destruct (decide (k = a)) as [->|Hne].
  - by rewrite lookup_insert_eq, Ha.
  - by rewrite lookup_insert_ne.
Qed.

Lemma mkdir_one_keeps (a : string) (fs : filesystem) (k : string) :
  is_Some (fs !! k) -> mkdir_one a fs !! k = fs !! k.
Proof.
  intros [dir Hk]. unfold mkdir_one. destruct (fs !! a) eqn:Ha; [done|].
  rewrite lookup_insert_ne; [done|]. intros ->. congruence.
Qed.

Lemma mkdir_one_other (a : string) (fs : filesystem) (k : string) :
  k <> a -> mkdir_one a fs !! k = fs !! k.
Proof.
  intros Hne. unfold mkdir_one. destruct (fs !! a); [done|]. by rewrite lookup_insert_ne.
Qed.

Lemma mkdir_all_default (l : list string) (fs : filesystem) (k : string) :
  default ∅ (fold_left (fun acc a => mkdir_one a acc) l fs !! k) = default ∅ (fs !! k).
Proof.
  revert fs. induction l as [|a l IH]; intros fs; [done|]. simpl.
  by rewrite IH, mkdir_one_default.
Qed.

Lemma mkdir_all_keeps (l : list string) (fs : filesystem) (k : string) :
  is_Some (fs !! k) -> fold_left (fun acc a => mkdir_one a acc) l fs !! k = fs !! k.
Proof.
  revert fs. induction l as [|a l IH]; intros fs Hk; [done|]. simpl.
  rewrite IH; rewrite mkdir_one_keeps; done.
Qed.

Lemma mkdir_all_other (l : list string) (fs : filesystem) (k : string) :
  ~ In k l -> fold_left (fun acc a => mkdir_one a acc) l fs !! k = fs !! k.
Proof.
  revert fs. induction l as [|a l IH]; intros fs Hk; [done|]. simpl.
  rewrite IH by (intros H; apply Hk; by right).
  apply mkdir_one_other. intros ->. apply Hk. by left.
Qed.

(** Making a directory changes no file. *)
Lemma mkdir_default (d : string) (fs : filesystem) (k : string) :
  default ∅ (mkdir d fs !! k) = default ∅ (fs !! k).
Proof. apply mkdir_all_default. Qed.

(** It removes no directory ... *)
Lemma mkdir_keeps (d : string) (fs : filesystem) (k : string) :
  is_Some (fs !! k) -> mkdir d fs !! k = fs !! k.
Proof. apply mkdir_all_keeps. Qed.

(** ... and makes none but the one named and those above it. *)
Lemma mkdir_other (d : string) (fs : filesystem) (k : string) :
  k <> d -> ~ In k (ancestors d) -> mkdir d fs !! k = fs !! k.
Proof.
  intros Hd Ha. apply mkdir_all_other. rewrite in_app_iff. intros [H|[H|[]]]; auto.
Qed.

Lemma mkdir_makes (d : string) (fs : filesystem) :
  mkdir d fs !! d = Some (default ∅ (fs !! d)).
Proof.
  unfold mkdir. rewrite fold_left_app. simpl.
  set (fs1 := fold_left _ (ancestors d) fs).
  assert (H1 : default ∅ (fs1 !! d) = default ∅ (fs !! d)) by apply mkdir_all_default.
  unfold mkdir_one. destruct (fs1 !! d) as [dir|] eqn:Hd.
  - rewrite Hd. by rewrite <- H1.
  - rewrite lookup_insert_eq. by rewrite <- H1.
Qed.

Lemma lookup_file_default (fs : filesystem) (p : path) :
  lookup_file fs p = default ∅ (fs !! p.1) !! p.2.
Proof. unfold lookup_file. destruct (fs !! p.1); simpl; [done | symmetry; apply lookup_empty]. Qed.

Lemma lookup_file_mkdir (d : string) (fs : filesystem) (p : path) :
  lookup_file (mkdir d fs) p = lookup_file fs p.
Proof. by rewrite !lookup_file_default, mkdir_default. Qed.

Lemma in_tree_refl (d : string) : in_tree d d = true.
Proof. unfold in_tree. by rewrite String.eqb_refl. Qed.

(** Removing a tree removes the directory and those below it, and leaves
    the others. *)
Lemma rmtree_lookup (d : string) (fs : filesystem) (k : string) :
  rmtree d fs !! k = if in_tree d k then None else fs !! k.
Proof.
  unfold rmtree. destruct (in_tree d k) eqn:Hk.
  - apply map_lookup_filter_None. right. intros dir _. simpl. by rewrite Hk.
  - destruct (fs !! k) as [dir|] eqn:Hl.
    + by apply map_lookup_filter_Some.
    + apply map_lookup_filter_None. by left.
Qed.

Lemma rmtree_gone (d : string) (fs : filesystem) : rmtree d fs !! d = None.
Proof. by rewrite rmtree_lookup, in_tree_refl. Qed.

Lemma open_after_mkdir (p : path) (fs : filesystem) :
  open_w p (mkdir p.1 fs) =
  <[p.1 := <[p.2 := {| f_content := ""; f_mode := mode_before fs p |}]> (dir_before fs p)]>
    (mkdir p.1 fs).
Proof.
  unfold open_w. rewrite mkdir_makes. unfold mode_before, dir_before.
  by rewrite lookup_file_default.
Qed.

(** The disk after the directory is made, the file opened and the
    characters [cs] written. *)
Lemma written_state (p : path) (cs : list ascii) (fs : filesystem) :
  run_steps ([mkdir p.1; open_w p] ++ map (fun c => write_str p (String c "")) cs) fs =
  <[p.1 := <[p.2 := {| f_content := string_of_list_ascii cs;
                       f_mode := mode_before fs p |}]> (dir_before fs p)]> (mkdir p.1 fs).
Proof.
  rewrite run_steps_app. unfold run_steps at 2. simpl fold_left.
  rewrite open_after_mkdir.
  erewrite write_chars; [|apply lookup_insert_eq|apply lookup_insert_eq].
  simpl. by rewrite !insert_insert_eq.
Qed.

Lemma chmod_written (p : path) (fs : filesystem) (dir : gmap string file) (f : file) (mode : Z) :
  chmod p mode (<[p.1 := <[p.2 := f]> dir]> fs) =
  <[p.1 := <[p.2 := {| f_content := f_content f; f_mode := mode |}]> dir]> fs.
Proof. unfold chmod. rewrite !lookup_insert_eq. by rewrite !insert_insert_eq. Qed.

Section StoreFacts.
Context {L : PyLibs}.

(** A completed save leaves the directory made and, in it, the metadata
    file with exactly the new text and mode 0o600. *)
Lemma save_result (fs : filesystem) (user site : string) (m : SessionMetadata) (iv : string) :
  let p := _get_metadata_file user site in
  _save_session_metadata fs user site m iv =
  <[p.1 := <[p.2 := {| f_content := metadata_file_text iv m; f_mode := 384 |}]>
             (dir_before fs p)]> (mkdir p.1 fs).
Proof.
  intros p. unfold _save_session_metadata, save_steps. fold p.
  rewrite (List.app_assoc [mkdir p.1; open_w p]), run_steps_app.
  rewrite written_state. unfold run_steps. simpl fold_left.
  rewrite chmod_written. simpl. by rewrite string_of_list_ascii_of_string.
Qed.

Lemma read_after_save (fs : filesystem) (user site : string) (m : SessionMetadata) (iv : string) :
  read_file (_save_session_metadata fs user site m iv) (_get_metadata_file user site)
  = Some (metadata_file_text iv m).
Proof. rewrite save_result. unfold read_file. by rewrite lookup_file_insert. Qed.

(** Loading decodes the text of the metadata file when there is one. *)
Lemma load_reads_text (fs : filesystem) (user site text : string) :
  read_file fs (_get_metadata_file user site) = Some text ->
  _load_session_metadata fs user site = decode_metadata_text text.
Proof.
  intros Hread. unfold _load_session_metadata. rewrite Hread.
  replace (file_exists _ _) with true; [reflexivity|].
  symmetry. apply bool_decide_eq_true. unfold read_file in Hread.
  destruct (lookup_file fs _); [by eexists | discriminate].
Qed.

Lemma dir_exists_after_save (fs : filesystem) (user site : string) (m : SessionMetadata)
    (iv : string) :
  dir_exists (_save_session_metadata fs user site m iv) (_get_session_dir user site) = true.
Proof.
  rewrite save_result. unfold dir_exists. simpl. rewrite lookup_insert_eq.
  by apply bool_decide_eq_true.
Qed.

End StoreFacts.

(** ** Metadata store: round trip *)

Section RoundTrip.
Context {L : PyLibs} {HL : PyLibsLaws L}.

Lemma wf_metadata_dict (m : SessionMetadata) :
  wf_metadata m -> wf_pyobj (metadata_dict m) = true.
Proof.
  intros (Hu & Hs & Hv & Hd & _ & _). unfold metadata_dict.
  cbn [wf_pyobj forallb map fst snd]. rewrite Hu, Hs, Hv, Hd. reflexivity.
Qed.

Lemma metadata_of_metadata_dict (m : SessionMetadata) :
  wf_metadata m -> metadata_of_dict (metadata_dict m) = Some m.
Proof.
  intros (_ & _ & _ & _ & Hc & Hl). destruct m as [u s c l v d]. simpl in *.
  unfold parse_timestamp. cbn [dict_get String.eqb Ascii.eqb Bool.eqb].
  rewrite (fromisoformat_isoformat c Hc), (fromisoformat_isoformat l Hl).
  reflexivity.
Qed.

Lemma decode_metadata_file_text (iv : string) (m : SessionMetadata) :
  wf_metadata m -> decode_metadata_text (metadata_file_text iv m) = Some m.
Proof.
  intros Hm. unfold decode_metadata_text, metadata_file_text.
  rewrite loads_dumps by reflexivity.
  cbn [encrypted_field dict_get String.eqb Ascii.eqb Bool.eqb].
  unfold _decrypt_data, _encrypt_data. rewrite decrypt_encrypt.
  rewrite loads_dumps by (by apply wf_metadata_dict).
  by apply metadata_of_metadata_dict.
Qed.

(** C1. Loading the metadata of a key right after saving [m] under it
    returns [m] itself: every field, and both timestamps to the
    microsecond. *)
Theorem load_after_save (fs : filesystem) (user site : string) (m : SessionMetadata)
    (iv : string) :
  wf_metadata m ->
  _load_session_metadata (_save_session_metadata fs user site m iv) user site = Some m.
Proof.
  intros Hm.
  rewrite (load_reads_text _ user site (metadata_file_text iv m)).
  - by apply decode_metadata_file_text.
  - apply read_after_save.
Qed.

End RoundTrip.

(** ** The reference instance satisfies the contracts *)

Lemma pyobj_ind (P : pyobj -> Prop) :
  P PNone -> (forall b, P (PBool b)) -> (forall z, P (PInt z)) -> (forall s, P (PStr s)) ->
  (forall l, Forall P l -> P (PList l)) ->
  (forall d, Forall (fun kv => P kv.2) d -> P (PDict d)) ->
  forall v, P v.
Proof.
  intros HN HB HI HS HL HD. fix IH 1. intros [ |b|z|s|l|d].
  - exact HN.
  - apply HB.
  - apply HI.
  - apply HS.
  - apply HL. induction l as [|x l IHl]; constructor; [apply IH | exact IHl].
  - apply HD. induction d as [|[k x] d IHd]; constructor; [apply IH | exact IHd].
Qed.

Lemma ascii_xor_involutive (k c : ascii) : Ref.ascii_xor k (Ref.ascii_xor k c) = c.
Proof.
  destruct k as [k0 k1 k2 k3 k4 k5 k6 k7], c as [c0 c1 c2 c3 c4 c5 c6 c7]. simpl.
  f_equal; rewrite <- xorb_assoc, xorb_nilpotent; apply xorb_false_l.
Qed.

Lemma mask_involutive (k : ascii) (s : string) : Ref.mask k (Ref.mask k s) = s.
Proof.
  induction s as [|c s IH]; [reflexivity|]. simpl. by rewrite ascii_xor_involutive, IH.
Qed.

Lemma ref_decrypt_encrypt (iv p : string) : Ref.decrypt (Ref.encrypt iv p) = Some p.
Proof.
  unfold Ref.encrypt, Ref.decrypt. rewrite Ascii.eqb_refl. by rewrite mask_involutive.
Qed.

Lemma parse_print_Z (z : Z) : Ref.parse_Z (Ref.print_Z z) = Some z.
Proof.
  unfold Ref.parse_Z, Ref.print_Z. rewrite NilZero.isi.
  - by rewrite DecimalZ.of_to.
  - destruct z; simpl; try discriminate. intros [= H]. by apply Unsigned.to_uint_nonnil in H.
  - destruct z; simpl; try discriminate. intros [= H]. by apply Unsigned.to_uint_nonnil in H.
Qed.

Lemma span_num_follow (rest : string) :
  Ref.follow_ok rest = true -> Ref.span_num rest = ("", rest).
Proof.
  destruct rest as [|c r]; [reflexivity|]. simpl. by intros ->%negb_true_iff.
Qed.

Lemma span_num_uint (d : uint) (rest : string) :
  Ref.follow_ok rest = true ->
  Ref.span_num (NilEmpty.string_of_uint d +:+ rest) = (NilEmpty.string_of_uint d, rest).
Proof.
  intros Hr. induction d; simpl NilEmpty.string_of_uint;
    rewrite ?str_app_cons, ?str_app_nil_l; [by apply span_num_follow|..];
    cbn [Ref.span_num]; rewrite IHd; reflexivity.
Qed.

Lemma span_num_print_Z (z : Z) (rest : string) :
  Ref.follow_ok rest = true ->
  Ref.span_num (Ref.print_Z z +:+ rest) = (Ref.print_Z z, rest).
Proof.
  intros Hr. unfold Ref.print_Z.
  assert (Hu : forall d, Ref.span_num (NilZero.string_of_uint d +:+ rest)
                         = (NilZero.string_of_uint d, rest)).
  { intros d. destruct d; try apply (span_num_uint _ _ Hr).
    simpl. rewrite str_app_nil_l. by rewrite (span_num_follow _ Hr). }
  destruct (Z.to_int z) as [d|d]; simpl NilZero.string_of_int; [apply Hu|].
  rewrite str_app_cons. cbn [Ref.span_num]. by rewrite Hu.
Qed.

(** The text of an integer starts with a sign or a digit. *)
Lemma print_Z_head (z : Z) :
  exists c s, Ref.print_Z z = String c s /\ Ref.is_num_char c = true.
Proof.
  unfold Ref.print_Z. destruct (Z.to_int z) as [d|d]; simpl.
  - destruct d; simpl; eauto.
  - eauto.
Qed.

Lemma needs_escape_false (c : ascii) :
  Ref.needs_escape c = false ->
  Ascii.eqb c Ref.dquote = false /\ Ascii.eqb c Ref.backslash = false.
Proof. unfold Ref.needs_escape. by intros [? ?]%orb_false_iff. Qed.

Lemma parse_string_body_escape (s rest : string) :
  Ref.parse_string_body (Ref.escape s +:+ String Ref.dquote rest) = Some (s, rest).
Proof.
  induction s as [|c s IH]; [reflexivity|].
  cbn [Ref.escape]. destruct (Ref.needs_escape c) eqn:Hc.
  - rewrite !str_app_cons. cbn [Ref.parse_string_body].
    change (Ascii.eqb Ref.backslash Ref.dquote) with false.
    change (Ascii.eqb Ref.backslash Ref.backslash) with true.
    cbv iota. by rewrite Hc, IH.
  - rewrite str_app_cons. cbn [Ref.parse_string_body].
    destruct (needs_escape_false c Hc) as [-> ->]. by rewrite IH.
Qed.

Lemma quote_app (s rest : string) :
  Ref.quote s +:+ rest = String Ref.dquote (Ref.escape s +:+ String Ref.dquote rest).
Proof. unfold Ref.quote. by rewrite str_app_cons, str_app_assoc. Qed.

Lemma dumps_list_cons (x : pyobj) (l : list pyobj) :
  Ref.dumps (PList (x :: l)) = "[" +:+ Ref.dumps x +:+ Ref.dumps_elems l.
Proof. reflexivity. Qed.

Lemma dumps_dict_cons (k : string) (x : pyobj) (d : list (string * pyobj)) :
  Ref.dumps (PDict ((k, x) :: d)) =
  "{" +:+ Ref.quote k +:+ ": " +:+ Ref.dumps x +:+ Ref.dumps_members d.
Proof. reflexivity. Qed.

Lemma dumps_elems_cons (y : pyobj) (l : list pyobj) :
  Ref.dumps_elems (y :: l) = ", " +:+ Ref.dumps y +:+ Ref.dumps_elems l.
Proof. reflexivity. Qed.

Lemma dumps_members_cons (k : string) (y : pyobj) (d : list (string * pyobj)) :
  Ref.dumps_members ((k, y) :: d) =
  ", " +:+ Ref.quote k +:+ ": " +:+ Ref.dumps y +:+ Ref.dumps_members d.
Proof. reflexivity. Qed.

(** No value starts with a closing bracket. *)
Lemma dumps_not_closing (x : pyobj) (rest : string) :
  Ref.strip_prefix "]" (Ref.dumps x +:+ rest) = None.
Proof.
  destruct x as [ |[|]|z|s|[|y l]|[|[k y] d]]; try reflexivity.
  destruct (print_Z_head z) as (c & s & Hz & Hc). simpl Ref.dumps. rewrite Hz, str_app_cons.
  cbn [Ref.strip_prefix]. destruct (Ascii.eqb_spec "]" c) as [<-|]; [discriminate|reflexivity].
Qed.

Lemma follow_ok_elems (l : list pyobj) (rest : string) :
  Ref.follow_ok (Ref.dumps_elems l +:+ rest) = true.
Proof. by destruct l. Qed.

Lemma follow_ok_members (d : list (string * pyobj)) (rest : string) :
  Ref.follow_ok (Ref.dumps_members d +:+ rest) = true.
Proof. by destruct d as [|[k y] d]. Qed.

Lemma length_quote (s : string) : (2 <= String.length (Ref.quote s))%nat.
Proof. unfold Ref.quote. simpl. rewrite str_length_app. simpl. lia. Qed.

(** The shapes of the text of a non-empty list or dict, with what follows. *)
Lemma list_cons_app (x : pyobj) (l : list pyobj) (rest : string) :
  Ref.dumps (PList (x :: l)) +:+ rest =
  String "[" (Ref.dumps x +:+ (Ref.dumps_elems l +:+ rest)).
Proof. rewrite dumps_list_cons, !str_app_assoc. reflexivity. Qed.

Lemma elems_cons_app (y : pyobj) (l : list pyobj) (rest : string) :
  Ref.dumps_elems (y :: l) +:+ rest =
  String "," (String " " (Ref.dumps y +:+ (Ref.dumps_elems l +:+ rest))).
Proof. rewrite dumps_elems_cons, !str_app_assoc. reflexivity. Qed.

Lemma dict_cons_app (k : string) (x : pyobj) (d : list (string * pyobj)) (rest : string) :
  Ref.dumps (PDict ((k, x) :: d)) +:+ rest =
  String "{" (Ref.quote k +:+ ": " +:+ Ref.dumps x +:+ (Ref.dumps_members d +:+ rest)).
Proof. rewrite dumps_dict_cons, !str_app_assoc. reflexivity. Qed.

Lemma members_cons_app (k : string) (y : pyobj) (d : list (string * pyobj)) (rest : string) :
  Ref.dumps_members ((k, y) :: d) +:+ rest =
  String "," (String " "
    (Ref.quote k +:+ ": " +:+ Ref.dumps y +:+ (Ref.dumps_members d +:+ rest))).
Proof. rewrite dumps_members_cons, !str_app_assoc. reflexivity. Qed.

Lemma length_list_cons (x : pyobj) (l : list pyobj) :
  String.length (Ref.dumps (PList (x :: l))) =
  (1 + String.length (Ref.dumps x) + String.length (Ref.dumps_elems l))%nat.
Proof. rewrite dumps_list_cons, !str_length_app. simpl. lia. Qed.

Lemma length_elems_cons (y : pyobj) (l : list pyobj) :
  String.length (Ref.dumps_elems (y :: l)) =
  (2 + String.length (Ref.dumps y) + String.length (Ref.dumps_elems l))%nat.
Proof. rewrite dumps_elems_cons, !str_length_app. simpl. lia. Qed.

Lemma length_dict_cons (k : string) (x : pyobj) (d : list (string * pyobj)) :
  String.length (Ref.dumps (PDict ((k, x) :: d))) =
  (3 + String.length (Ref.quote k) + String.length (Ref.dumps x)
   + String.length (Ref.dumps_members d))%nat.
Proof. rewrite dumps_dict_cons, !str_length_app. simpl. lia. Qed.

Lemma length_members_cons (k : string) (y : pyobj) (d : list (string * pyobj)) :
  String.length (Ref.dumps_members ((k, y) :: d)) =
  (4 + String.length (Ref.quote k) + String.length (Ref.dumps y)
   + String.length (Ref.dumps_members d))%nat.
Proof. rewrite dumps_members_cons, !str_length_app. simpl. lia. Qed.

Lemma parse_int_text (z : Z) (rest : string) (fuel : nat) :
  Ref.follow_ok rest = true ->
  Ref.parse_value (S fuel) (Ref.print_Z z +:+ rest) = Some (PInt z, rest).
Proof.
  intros Hr. destruct (print_Z_head z) as (c & s & Hz & Hc).
  pose proof (span_num_print_Z z rest Hr) as Hspan. rewrite Hz, str_app_cons in *.
  cbn [Ref.parse_value]. rewrite Hc, Hspan, <- Hz. by rewrite parse_print_Z.
Qed.

Lemma parse_member_text (k : string) (x : pyobj) :
  (forall rest fuel, Ref.follow_ok rest = true ->
     (String.length (Ref.dumps x) < fuel)%nat ->
     Ref.parse_value fuel (Ref.dumps x +:+ rest) = Some (x, rest)) ->
  forall rest fuel, Ref.follow_ok rest = true ->
    (String.length (Ref.dumps x) + 1 < fuel)%nat ->
    Ref.parse_member fuel (Ref.quote k +:+ ": " +:+ Ref.dumps x +:+ rest)
    = Some ((k, x), rest).
Proof.
  intros IH rest fuel Hr Hf. fuel_step fuel.
  rewrite quote_app. cbn [Ref.parse_member Ref.strip_prefix].
  change (Ascii.eqb Ref.dquote Ref.dquote) with true. cbv iota.
  rewrite parse_string_body_escape. rewrite !str_app_cons, str_app_nil_l.
  cbn [Ref.strip_prefix Ascii.eqb Bool.eqb]. rewrite IH by (done || lia). reflexivity.
Qed.

Lemma parse_elems_text (l : list pyobj) :
  Forall (fun x => forall rest fuel, Ref.follow_ok rest = true ->
            (String.length (Ref.dumps x) < fuel)%nat ->
            Ref.parse_value fuel (Ref.dumps x +:+ rest) = Some (x, rest)) l ->
  forall rest fuel,
    (String.length (Ref.dumps_elems l) < fuel)%nat ->
    Ref.parse_elems fuel (Ref.dumps_elems l +:+ rest) = Some (l, rest).
Proof.
  induction 1 as [|y l Hy _ IHl]; intros rest fuel Hf.
  - fuel_step fuel. reflexivity.
  - rewrite length_elems_cons in Hf. fuel_step fuel. rewrite elems_cons_app.
    cbn [Ref.parse_elems Ref.strip_prefix Ascii.eqb Bool.eqb].
    rewrite Hy by (apply follow_ok_elems || lia). by rewrite IHl by lia.
Qed.

Lemma parse_members_text (d : list (string * pyobj)) :
  Forall (fun kv => forall rest fuel, Ref.follow_ok rest = true ->
            (String.length (Ref.dumps kv.2) < fuel)%nat ->
            Ref.parse_value fuel (Ref.dumps kv.2 +:+ rest) = Some (kv.2, rest)) d ->
  forall rest fuel,
    (String.length (Ref.dumps_members d) < fuel)%nat ->
    Ref.parse_members fuel (Ref.dumps_members d +:+ rest) = Some (d, rest).
Proof.
  induction 1 as [|[k y] d Hy _ IHd]; intros rest fuel Hf.
  - fuel_step fuel. reflexivity.
  - rewrite length_members_cons in Hf. pose proof (length_quote k).
    fuel_step fuel. rewrite members_cons_app.
    cbn [Ref.parse_members Ref.strip_prefix Ascii.eqb Bool.eqb].
    rewrite (parse_member_text k y Hy) by (apply follow_ok_members || lia).
    by rewrite IHd by lia.
Qed.

(** Reading back what [dumps] wrote, whatever text follows. *)
Lemma parse_value_dumps (v : pyobj) :
  forall rest fuel, Ref.follow_ok rest = true ->
    (String.length (Ref.dumps v) < fuel)%nat ->
    Ref.parse_value fuel (Ref.dumps v +:+ rest) = Some (v, rest).
Proof.
  induction v as [ |b|z|s|l IHl|d IHd] using pyobj_ind; intros rest fuel Hr Hf.
  - fuel_step fuel. reflexivity.
  - fuel_step fuel. by destruct b.
  - fuel_step fuel. by apply parse_int_text.
  - fuel_step fuel. simpl Ref.dumps. rewrite quote_app. cbn [Ref.parse_value].
    change (Ref.is_num_char Ref.dquote) with false.
    change (Ascii.eqb Ref.dquote "n") with false.
    change (Ascii.eqb Ref.dquote "t") with false.
    change (Ascii.eqb Ref.dquote "f") with false.
    change (Ascii.eqb Ref.dquote Ref.dquote) with true. cbv iota.
    by rewrite parse_string_body_escape.
  - destruct l as [|x l]; [fuel_step fuel; reflexivity|].
    rewrite length_list_cons in Hf. fuel_step fuel. rewrite list_cons_app.
    inversion IHl as [|? ? Hx Hl]; subst.
    cbn [Ref.parse_value]. change (Ref.is_num_char "[") with false.
    cbn [Ascii.eqb Bool.eqb]. cbv iota.
    change (Ascii.eqb "[" Ref.dquote) with false. cbv iota.
    rewrite dumps_not_closing.
    rewrite Hx by (apply follow_ok_elems || lia).
    by rewrite (parse_elems_text l Hl) by lia.
  - destruct d as [|[k x] d]; [fuel_step fuel; reflexivity|].
    rewrite length_dict_cons in Hf. pose proof (length_quote k).
    fuel_step fuel. rewrite dict_cons_app.
    inversion IHd as [|? ? Hx Hd]; subst. simpl in Hx.
    cbn [Ref.parse_value]. change (Ref.is_num_char "{") with false.
    cbn [Ascii.eqb Bool.eqb]. cbv iota.
    change (Ascii.eqb "{" Ref.dquote) with false. cbv iota.
    rewrite quote_app at 1. cbn [Ref.strip_prefix].
    change (Ascii.eqb "}" Ref.dquote) with false. cbv iota.
    rewrite <- quote_app.
    rewrite (parse_member_text k x Hx) by (apply follow_ok_members || lia).
    by rewrite (parse_members_text d Hd) by lia.
Qed.

Lemma ref_loads_dumps (v : pyobj) : wf_pyobj v = true -> Ref.loads (Ref.dumps v) = Some v.
Proof.
  intros Hv. unfold Ref.loads.
  rewrite <- (str_app_nil_r (Ref.dumps v)) at 2.
  rewrite parse_value_dumps by (done || lia). by rewrite Hv.
Qed.

Lemma ref_loads_wf (s : string) (v : pyobj) : Ref.loads s = Some v -> wf_pyobj v = true.
Proof.
  unfold Ref.loads. destruct (Ref.parse_value _ s) as [[v' [|c r]]|]; try discriminate.
  destruct (wf_pyobj v') eqn:Hv; [|discriminate]. by intros [= <-].
Qed.

Lemma ref_fromisoformat_isoformat (d : datetime) :
  valid_datetime d -> Ref.fromisoformat (Ref.isoformat d) = Some d.
Proof.
  intros [H0 H1]. unfold Ref.fromisoformat, Ref.isoformat. rewrite parse_print_Z.
  apply Z.leb_le in H0, H1. by rewrite H0, H1.
Qed.

Lemma ref_fromisoformat_valid (s : string) (d : datetime) :
  Ref.fromisoformat s = Some d -> valid_datetime d.
Proof.
  unfold Ref.fromisoformat. destruct (Ref.parse_Z s) as [z|]; [|discriminate].
  destruct (0 <=? z) eqn:H0; [|discriminate]. destruct (z <=? datetime_max) eqn:H1; [|discriminate].
  intros [= <-]. split; by apply Z.leb_le.
Qed.

(** The reference libraries honour every contract of [PyLibsLaws]. *)
Lemma ref_laws : PyLibsLaws Ref.libs.
Proof.
  split.
  - exact ref_decrypt_encrypt.
  - exact ref_loads_dumps.
  - exact ref_loads_wf.
  - exact ref_fromisoformat_isoformat.
  - exact ref_fromisoformat_valid.
Qed.

(** ** Metadata store: what loading returns *)

Lemma load_after_save_witness :
  _load_session_metadata (L := Ref.libs)
    (_save_session_metadata (L := Ref.libs) ∅ "u1" "siteA" Demo.m "iv") "u1" "siteA"
  = Some Demo.m.
Proof.
  apply (@load_after_save Ref.libs ref_laws).
  unfold wf_metadata, valid_datetime, datetime_max. simpl. lia.
Defined.

Section LoadFailures.
Context {L : PyLibs}.

Lemma schema_invalid_no_metadata (v : pyobj) :
  schema_invalid v -> metadata_of_dict v = None.
Proof.
  intros [v' Hv|d k Hk Hget|d k v' Hk Hget Hbad|d k Hk Hnot].
  - destruct v'; try reflexivity. by destruct (Hv d).
  - unfold metadata_of_dict, parse_timestamp.
    destruct Hk as [<-|[<-|[<-|[<-|[]]]]]; rewrite Hget;
      repeat (match goal with |- context [match ?x with _ => _ end] => destruct x end);
      reflexivity.
  - unfold metadata_of_dict, parse_timestamp.
    assert (Hp : match v' with PStr s => fromisoformat s | _ => None end = None).
    { destruct v'; try reflexivity. by apply Hbad. }
    destruct Hk as [<-|[<-|[]]]; rewrite Hget, Hp; [reflexivity|].
    by destruct (match dict_get d "created_at" with Some (PStr s) => _ | _ => _ end).
  - unfold metadata_of_dict.
    assert (Hf : forallb (fun k => existsb (String.eqb k) metadata_fields) (map fst d) = false).
    { apply not_true_is_false. intros Hall. apply Hnot.
      rewrite forallb_forall in Hall. specialize (Hall k Hk).
      apply existsb_exists in Hall as (k' & Hin & ->%String.eqb_eq). exact Hin. }
    rewrite Hf.
    repeat (match goal with |- context [match ?x with _ => _ end] => destruct x end);
      reflexivity.
Qed.

Lemma corrupt_no_metadata (text : string) : corrupt text -> decode_metadata_text text = None.
Proof.
  unfold decode_metadata_text, _decrypt_data.
  intros [H|data H Hno|d token H Ht Hd|d token plain H Ht Hd Hp|d token plain v H Ht Hd Hp Hv];
    rewrite H; try reflexivity.
  - destruct data as [ | | | | |d]; try reflexivity. simpl.
    destruct (dict_get d "encrypted_metadata") as [[ | | |token| | ]|] eqn:Hg; try reflexivity.
    by destruct (Hno d token eq_refl).
  - simpl. by rewrite Ht, Hd.
  - simpl. by rewrite Ht, Hd, Hp.
  - simpl. rewrite Ht, Hd, Hp. by apply schema_invalid_no_metadata.
Qed.

Lemma forallb_false_In {A : Type} (f : A -> bool) (l : list A) :
  forallb f l = false -> exists x, In x l /\ f x = false.
Proof.
  induction l as [|x l IH]; [discriminate|]. simpl.
  destruct (f x) eqn:Hx; simpl.
  - intros (y & Hy & Hfy)%IH. exists y. by split; [right|].
  - intros _. exists x. by split; [left|].
Qed.

(** Conversely, a dict that yields no metadata is schema-invalid, and a
    text that yields none is corrupt: the two predicates are exact. *)
Lemma no_metadata_schema_invalid (v : pyobj) :
  metadata_of_dict v = None -> schema_invalid v.
Proof.
  destruct v as [ | | | | |d]; try (intros _; by apply not_a_dict).
  unfold metadata_of_dict, parse_timestamp.
  destruct (dict_get d "created_at") as [vc|] eqn:Hc;
    [|intros _; apply (missing_field d "created_at"); simpl; tauto].
  destruct (match vc with PStr s => fromisoformat s | _ => None end) as [c|] eqn:Hpc.
  2:{ intros _. apply (bad_timestamp d "created_at" vc); [simpl; tauto|done|].
      intros s ->. exact Hpc. }
  replace (match vc with PStr s => fromisoformat s | _ => None end) with (Some c)
    by (by destruct vc).
  destruct (dict_get d "last_used") as [vl|] eqn:Hl;
    [|intros _; apply (missing_field d "last_used"); simpl; tauto].
  destruct (match vl with PStr s => fromisoformat s | _ => None end) as [l|] eqn:Hpl.
  2:{ intros _. apply (bad_timestamp d "last_used" vl); [simpl; tauto|done|].
      intros s ->. exact Hpl. }
  replace (match vl with PStr s => fromisoformat s | _ => None end) with (Some l)
    by (by destruct vl).
  destruct (forallb _ (map fst d)) eqn:Hall.
  - destruct (dict_get d "user_id") eqn:Hu;
      [|intros _; apply (missing_field d "user_id"); simpl; tauto].
    destruct (dict_get d "site_name") eqn:Hs; [discriminate|].
    intros _. apply (missing_field d "site_name"); simpl; tauto.
  - intros _. apply forallb_false_In in Hall as (k & Hk & Hnot).
    apply (unknown_field d k); [exact Hk|]. intros Hin.
    apply not_true_iff_false in Hnot. apply Hnot.
    apply existsb_exists. exists k. split; [exact Hin | apply String.eqb_refl].
Qed.

Lemma no_metadata_corrupt (text : string) : decode_metadata_text text = None -> corrupt text.
Proof.
  unfold decode_metadata_text, _decrypt_data, encrypted_field.
  destruct (json_loads text) as [data|] eqn:Hdata; [|intros _; by apply not_json].
  destruct data as [ | | | | |d];
    try (intros _; apply (no_token text _ Hdata); intros; discriminate).
  destruct (dict_get d "encrypted_metadata") as [[ | | |token| | ]|] eqn:Htok;
    try (intros _; apply (no_token text _ Hdata); intros d' token' [= <-]; congruence).
  destruct (fernet_decrypt token) as [plain|] eqn:Hdec;
    [|intros _; by apply (undecryptable text d token)].
  destruct (json_loads plain) as [v|] eqn:Hv;
    [|intros _; by apply (plaintext_not_json text d token plain)].
  intros Hnone. apply (plaintext_schema_invalid text d token plain v); try done.
  by apply no_metadata_schema_invalid.
Qed.

Lemma load_absent (fs : filesystem) (user site : string) :
  file_exists fs (_get_metadata_file user site) = false ->
  _load_session_metadata fs user site = None.
Proof. unfold _load_session_metadata. by intros ->. Qed.

(** C2, as amended. When the metadata file of a key exists but is corrupt
    (not JSON, no token, a token that does not decrypt, or a plaintext
    that is not a valid metadata dict), loading returns [None], which is
    also what it returns when the file does not exist; no metadata is
    returned and no error is raised. *)
Theorem load_corrupt_returns_none (fs : filesystem) (user site text : string) :
  read_file fs (_get_metadata_file user site) = Some text ->
  corrupt text ->
  _load_session_metadata fs user site = None /\
  (forall fs', file_exists fs' (_get_metadata_file user site) = false ->
               _load_session_metadata fs' user site = _load_session_metadata fs user site).
Proof.
  intros Hread Hc.
  assert (Hnone : _load_session_metadata fs user site = None).
  { rewrite (load_reads_text _ _ _ _ Hread). by apply corrupt_no_metadata. }
  split; [exact Hnone|]. intros fs' Habs. by rewrite Hnone, load_absent.
Qed.

End LoadFailures.

Lemma load_corrupt_returns_none_witness :
  _load_session_metadata (L := Ref.libs) Demo.tampered_disk "u1" "siteA" = None /\
  (forall fs', file_exists fs' (_get_metadata_file (L := Ref.libs) "u1" "siteA") = false ->
     _load_session_metadata (L := Ref.libs) fs' "u1" "siteA"
     = _load_session_metadata (L := Ref.libs) Demo.tampered_disk "u1" "siteA").
Proof.
  eapply (@load_corrupt_returns_none Ref.libs Demo.tampered_disk "u1" "siteA").
  - vm_compute. reflexivity.
  - eapply (@undecryptable Ref.libs); vm_compute; reflexivity.
Defined.

(** C2, as stated, fails: on a disk where the metadata file exists and one
    byte of its token was flipped, loading reports nothing to the caller
    and returns [None], the very result it gives for an absent file. *)
Lemma load_corrupt_counterexample :
  let p := _get_metadata_file (L := Ref.libs) "u1" "siteA" in
  _load_session_metadata (L := Ref.libs) Demo.saved_disk "u1" "siteA" = Some Demo.m /\
  file_exists Demo.tampered_disk p = true /\
  read_file Demo.tampered_disk p <> read_file Demo.saved_disk p /\
  _load_session_metadata (L := Ref.libs) Demo.tampered_disk "u1" "siteA" = None /\
  _load_session_metadata (L := Ref.libs) ∅ "u1" "siteA" = None.
Proof. vm_compute. repeat split; congruence. Qed.

(** ** Expiration policy *)

(** C3. A session is expired exactly when its validity flag is false or
    [now] is later than [last_used] plus 168 hours: not yet one second
    before that instant, expired one second after it, and always expired
    when the flag is false. The hypothesis only asks that the expiry
    instant is a [datetime] when the flag is true. *)
Theorem is_session_expired_policy (m : SessionMetadata) (now : datetime) :
  truthy (is_valid m) = false \/ valid_datetime (last_used m + timedelta_hours 168) ->
  let expiry := last_used m + timedelta_hours 168 in
  (exists b, _is_session_expired m now = Some b /\
             (b = true <-> truthy (is_valid m) = false \/ now > expiry)) /\
  (truthy (is_valid m) = false -> _is_session_expired m now = Some true) /\
  (truthy (is_valid m) = true ->
     _is_session_expired m (expiry - timedelta_seconds 1) = Some false /\
     _is_session_expired m (expiry + timedelta_seconds 1) = Some true).
Proof.
  intros H expiry. unfold _is_session_expired.
  destruct (truthy (is_valid m)) eqn:Hv; simpl.
  - destruct H as [H|[H0 H1]]; [discriminate|].
    unfold datetime_add. change SESSION_TIMEOUT_HOURS with 168. fold expiry.
    apply Z.leb_le in H0, H1. fold expiry in H0, H1. rewrite H0, H1. simpl.
    split; [|split; [discriminate|]].
    + exists (expiry <? now). split; [reflexivity|]. rewrite Z.ltb_lt. split.
      * intros Hlt. right. lia.
      * intros [Hf|Hgt]; [discriminate | lia].
    + intros _. unfold timedelta_seconds. split; f_equal.
      * apply Z.ltb_ge. lia.
      * apply Z.ltb_lt. lia.
  - split; [|split; [reflexivity | discriminate]].
    exists true. split; [reflexivity|]. split; [by left | reflexivity].
Qed.

Lemma is_session_expired_policy_witness :
  let expiry := last_used Demo.m + timedelta_hours 168 in
  (exists b, _is_session_expired Demo.m 63800000000000002 = Some b /\
             (b = true <-> truthy (is_valid Demo.m) = false
                           \/ 63800000000000002 > expiry)) /\
  (truthy (is_valid Demo.m) = false ->
     _is_session_expired Demo.m 63800000000000002 = Some true) /\
  (truthy (is_valid Demo.m) = true ->
     _is_session_expired Demo.m (expiry - timedelta_seconds 1) = Some false /\
     _is_session_expired Demo.m (expiry + timedelta_seconds 1) = Some true).
Proof.
  apply (is_session_expired_policy Demo.m 63800000000000002).
  right. unfold valid_datetime, datetime_max, timedelta_hours. simpl. lia.
Defined.

(** ** Session lifecycle *)

Section Lifecycle.
Context {L : PyLibs}.

(** While a login is pending the engine is running: a context is only
    registered after the browser was started, and nothing stops it. *)
Lemma pending_engine_up (s : manager) : reachable s -> engine_up_if_pending s.
Proof.
  unfold engine_up_if_pending.
  induction 1 as [disk|s user site url e _ IH|s user site e _ IH
                 |s user site a d e _ IH|s user site _ IH].
  - by left.
  - unfold create_session, _setup_playwright, new_context.
    repeat case_match; simplify_eq/=; try tauto; try (right; split; congruence).
    right. split; [by apply negb_false_iff | assumption].
  - unfold confirm_login, close_context.
    repeat case_match; simplify_eq/=; try tauto.
    all: destruct IH as [IH|IH]; [|tauto]; rewrite IH in *; by rewrite lookup_empty in *.
  - unfold execute_action, execute_handler, _setup_playwright, new_context, close_context.
    repeat case_match; simplify_eq/=; try tauto.
  - unfold delete_session. repeat case_match; simplify_eq/=; tauto.
Qed.

Lemma registry_inv_open (registry : gmap string context) (opened : gset context)
    (next : context) :
  registry_inv registry opened next ->
  registry_inv registry ({[next]} ∪ opened) (S next).
Proof.
  intros (I1 & I2 & I3). repeat split.
  - intros k c Hk. apply elem_of_union. right. by apply (I1 k).
  - intros c [->%elem_of_singleton|Hc%I2]%elem_of_union; lia.
  - exact I3.
Qed.

Lemma registry_inv_open_close (registry : gmap string context) (opened : gset context)
    (next : context) :
  registry_inv registry opened next ->
  registry_inv registry (({[next]} ∪ opened) ∖ {[next]}) (S next).
Proof.
  intros (I1 & I2 & I3). repeat split.
  - intros k c Hk. apply elem_of_difference. split.
    + apply elem_of_union. right. by apply (I1 k).
    + intros ->%elem_of_singleton. apply I1, I2 in Hk. lia.
  - intros c [[->%elem_of_singleton|Hc%I2]%elem_of_union _]%elem_of_difference; lia.
  - exact I3.
Qed.

Lemma registry_inv_register (k0 : string) (registry : gmap string context)
    (opened : gset context) (next : context) :
  registry_inv registry opened next ->
  registry_inv (<[k0 := next]> registry) ({[next]} ∪ opened) (S next).
Proof.
  intros (I1 & I2 & I3). repeat split.
  - intros k c [[-> <-]|[_ Hk]]%lookup_insert_Some; apply elem_of_union.
    + left. by apply elem_of_singleton.
    + right. by apply (I1 k).
  - intros c [->%elem_of_singleton|Hc%I2]%elem_of_union; lia.
  - intros k k' c [[-> <-]|[Hne Hk]]%lookup_insert_Some
                  [[-> Hc]|[Hne' Hk']]%lookup_insert_Some; try reflexivity.
    + apply I1, I2 in Hk'. lia.
    + subst c. apply I1, I2 in Hk. lia.
    + by apply (I3 k k' c).
Qed.

Lemma registry_inv_unregister (k0 : string) (c0 : context)
    (registry : gmap string context) (opened : gset context) (next : context) :
  registry !! k0 = Some c0 ->
  registry_inv registry opened next ->
  registry_inv (delete k0 registry) (opened ∖ {[c0]}) next.
Proof.
  intros H0 (I1 & I2 & I3). repeat split.
  - intros k c [Hne Hk]%lookup_delete_Some. apply elem_of_difference. split.
    + by apply (I1 k).
    + intros ->%elem_of_singleton. by destruct Hne; apply (I3 k0 k c0).
  - intros c [Hc _]%elem_of_difference. by apply I2.
  - intros k k' c [_ Hk]%lookup_delete_Some [_ Hk']%lookup_delete_Some. by apply (I3 k k' c).
Qed.

(** The registry invariant holds in every state the service reaches. *)
Lemma reachable_registry_ok (s : manager) : reachable s -> registry_ok s.
Proof.
  unfold registry_ok.
  induction 1 as [disk|s user site url e _ IH|s user site e _ IH
                 |s user site a d e _ IH|s user site _ IH].
  - repeat split; simpl; intros *; try rewrite lookup_empty; done.
  - unfold create_session, _setup_playwright, new_context.
    repeat case_match; simplify_eq/=;
      eauto using registry_inv_open, registry_inv_register.
  - unfold confirm_login, close_context.
    repeat case_match; simplify_eq/=; eauto using registry_inv_unregister.
  - unfold execute_action, execute_handler, _setup_playwright, new_context, close_context.
    repeat case_match; simplify_eq/=;
      eauto using registry_inv_open, registry_inv_open_close.
  - unfold delete_session. repeat case_match; simplify_eq/=; eauto.
Qed.



(** C4, as amended. In every state the service can reach, creating a
    session for a key that is already pending does not fail when the
    engine calls succeed: it opens a fresh context and registers it under
    the key in place of the previous one, which stays open and is no
    longer registered under any key; the registry keeps one entry for the
    key and its other entries. *)
Theorem create_replaces_pending (user site login_url : string) (e : create_env)
    (s : manager) (old : context) :
  reachable s ->
  active_sessions s !! (user +:+ ":" +:+ site) = Some old ->
  ce_new_context e = Returns tt -> ce_new_page e = Returns tt -> ce_goto e = Returns tt ->
  exists d s',
    create_session user site login_url e s = (Ok d, s') /\
    active_sessions s' = <[user +:+ ":" +:+ site := next_context s]> (active_sessions s) /\
    dom (active_sessions s') = dom (active_sessions s) /\
    next_context s <> old /\
    old ∈ open_contexts s' /\
    (forall k, active_sessions s' !! k <> Some old).
Proof.
  intros Hreach Hold Hctx Hpage Hgoto.
  destruct (pending_engine_up s Hreach) as [Hnone|[Hpw Hbr]].
  { rewrite Hnone in Hold. by rewrite lookup_empty in Hold. }
  destruct (reachable_registry_ok s Hreach) as (I1 & I2 & I3).
  assert (Hfresh : next_context s <> old).
  { intros Heq. pose proof (I2 old (I1 _ _ Hold)). lia. }
  unfold create_session, _setup_playwright.
  rewrite Hpw. simpl. unfold new_context. simpl. rewrite Hbr, Hctx, Hpage, Hgoto. simpl.
  do 2 eexists. split; [reflexivity|]. simpl. repeat split.
  - rewrite dom_insert_L. apply subseteq_union_1_L, singleton_subseteq_l.
    by apply elem_of_dom_2 in Hold.
  - exact Hfresh.
  - apply elem_of_union. right. by apply (I1 _ _ Hold).
  - intros k [[_ Heq]|[Hne Hk]]%lookup_insert_Some; [by apply Hfresh|].
    by destruct Hne; apply (I3 _ _ old).
Qed.

End Lifecycle.



Lemma create_replaces_pending_witness :
  exists d s',
    create_session (L := Ref.libs) "u1" "siteA" Demo.login_url Demo.create_ok
      Demo.pending = (Ok d, s') /\
    active_sessions s' = <["u1" +:+ ":" +:+ "siteA" := next_context Demo.pending]>
                           (active_sessions Demo.pending) /\
    dom (active_sessions s') = dom (active_sessions Demo.pending) /\
    next_context Demo.pending <> 0%nat /\
    0%nat ∈ open_contexts s' /\
    (forall k, active_sessions s' !! k <> Some 0%nat).
Proof.
  apply (@create_replaces_pending Ref.libs "u1" "siteA" Demo.login_url
           Demo.create_ok Demo.pending 0%nat); try reflexivity.
  apply (@reach_create Ref.libs), (@reach_start Ref.libs).
Defined.

(** C4, as stated, fails: a second create for a pending key returns
    normally, the registry now names the second context, and the first one
    is still open. *)
Lemma create_twice_counterexample :
  let second := create_session (L := Ref.libs) "u1" "siteA" Demo.login_url
                  Demo.create_ok Demo.pending in
  active_sessions Demo.pending !! "u1:siteA" = Some 0%nat /\
  (exists d, second.1 = Ok d) /\
  active_sessions second.2 !! "u1:siteA" = Some 1%nat /\
  bool_decide (0%nat ∈ open_contexts second.2) = true.
Proof. vm_compute. repeat split. by eexists. Qed.


(** ** Interrupted saves *)

Lemma read_after_mkdir (p : path) (fs : filesystem) :
  read_file (mkdir p.1 fs) p = read_file fs p.
Proof. unfold read_file. by rewrite lookup_file_mkdir. Qed.



Section Interrupted.
Context {L : PyLibs}.



End Interrupted.


(** ** Action dispatcher *)

Lemma wf_dict_get (d : list (string * pyobj)) (k : string) (v : pyobj) :
  wf_pyobj (PDict d) = true -> dict_get d k = Some v -> wf_pyobj v = true.
Proof.
  simpl. intros [_ Hall]%andb_true_iff. induction d as [|[k' x] d IH]; [discriminate|].
  simpl in *. apply andb_true_iff in Hall as [Hx Hd].
  destruct (String.eqb k' k); [by intros [= <-] | by apply IH].
Qed.

Section Dispatcher.
Context {L : PyLibs} {HL : PyLibsLaws L}.

(** What was loaded from the disk is a well-formed metadata value. *)
Lemma load_wf (fs : filesystem) (user site : string) (m : SessionMetadata) :
  _load_session_metadata fs user site = Some m -> wf_metadata m.
Proof.
  unfold _load_session_metadata, decode_metadata_text.
  destruct (file_exists fs _); [|discriminate].
  destruct (read_file fs _) as [text|]; [|discriminate].
  destruct (json_loads text) as [data|]; [|discriminate].
  destruct (encrypted_field data) as [token|]; [|discriminate].
  destruct (_decrypt_data token) as [plain|]; [|discriminate].
  destruct (json_loads plain) as [v|] eqn:Hv; [|discriminate].
  apply loads_wf in Hv. destruct v as [ | | | | |d]; try discriminate.
  unfold metadata_of_dict, parse_timestamp.
  destruct (dict_get d "created_at") as [[ | | |sc| | ]|]; try discriminate.
  destruct (fromisoformat sc) as [c|] eqn:Hc; [|discriminate].
  destruct (dict_get d "last_used") as [[ | | |sl| | ]|]; try discriminate.
  destruct (fromisoformat sl) as [l|] eqn:Hl; [|discriminate].
  destruct (forallb _ _); [|discriminate].
  destruct (dict_get d "user_id") as [u|] eqn:Hu; [|discriminate].
  destruct (dict_get d "site_name") as [sn|] eqn:Hs; [|discriminate].
  intros [= <-]. unfold wf_metadata. simpl.
  split; [by apply (wf_dict_get d "user_id")|].
  split; [by apply (wf_dict_get d "site_name")|].
  split; [destruct (dict_get d "is_valid") eqn:Hi; simpl; eauto using wf_dict_get|].
  split; [destruct (dict_get d "session_data") eqn:Hi; simpl; eauto using wf_dict_get|].
  split; [by apply (fromisoformat_valid sc) | by apply (fromisoformat_valid sl)].
Qed.

Lemma load_dir_exists (fs : filesystem) (user site : string) (m : SessionMetadata) :
  _load_session_metadata fs user site = Some m ->
  dir_exists fs (_get_session_dir user site) = true.
Proof.
  unfold _load_session_metadata, file_exists, lookup_file, dir_exists. simpl.
  case_bool_decide as Hf; [|discriminate]. intros _. apply bool_decide_eq_true.
  destruct (fs !! _get_session_dir user site); [by eexists | by destruct Hf].
Qed.

Lemma wf_set_last_used (now : datetime) (m : SessionMetadata) :
  valid_datetime now -> wf_metadata m -> wf_metadata (set_last_used now m).
Proof. unfold wf_metadata. simpl. tauto. Qed.

Lemma wf_set_is_valid (b : bool) (m : SessionMetadata) :
  wf_metadata m -> wf_metadata (set_is_valid (PBool b) m).
Proof. unfold wf_metadata. simpl. tauto. Qed.

(** An invalidated session is refused before the engine is touched. *)
Lemma execute_invalid (user site action_type : string)
    (action_data : option (list (string * pyobj))) (e : execute_env) (s : manager)
    (m : SessionMetadata) :
  _load_session_metadata (fs s) user site = Some m ->
  truthy (is_valid m) = false ->
  execute_action user site action_type action_data e s
  = (Raise (HTTPException 401 "Session expired. Please re-login."), s).
Proof.
  intros Hload Hv. unfold execute_action, _is_session_expired. by rewrite Hload, Hv.
Qed.

Lemma execute_all_invalid (user site : string) (s : manager) (m : SessionMetadata)
    (calls : list (string * option (list (string * pyobj)) * execute_env)) :
  _load_session_metadata (fs s) user site = Some m ->
  truthy (is_valid m) = false ->
  execute_all user site calls s
  = (map (fun _ => Raise (HTTPException 401 "Session expired. Please re-login.")) calls, s).
Proof.
  intros Hload Hv. induction calls as [|[[a d] e] calls IH]; [reflexivity|].
  simpl. by rewrite (execute_invalid _ _ _ _ _ _ m Hload Hv), IH.
Qed.

(** The handler on a transport-error text: the flag is cleared on disk
    and 401 is raised. *)
Lemma execute_handler_invalidates (user site : string) (m : SessionMetadata)
    (iv msg : string) (s : manager) :
  contains "net::ERR_" msg || contains "Session expired" msg = true ->
  wf_metadata m ->
  exists s',
    execute_handler user site m iv msg s
    = (Raise (HTTPException 401 "Session invalid. Please re-login."), s') /\
    _load_session_metadata (fs s') user site = Some (set_is_valid (PBool false) m).
Proof.
  intros Hsig Hm. unfold execute_handler. rewrite Hsig. eexists. split; [reflexivity|].
  simpl. rewrite (load_reads_text _ _ _ _ (read_after_save _ _ _ _ _)).
  apply decode_metadata_file_text. by apply wf_set_is_valid.
Qed.

End Dispatcher.

Section DispatcherClaims.
Context {L : PyLibs} {HL : PyLibsLaws L}.

(** C6. When the [try] block of an execute on a confirmed, unexpired
    session raises an exception whose text contains "net::ERR_" or
    "Session expired", the call raises 401 and, in the state it leaves,
    the stored metadata already has its validity flag false; every later
    execute on that key, whatever the action and the engine's answers,
    raises 401 "Session expired" and changes nothing. *)
Theorem execute_transport_failure_invalidates (user site action_type : string)
    (action_data : option (list (string * pyobj))) (e : execute_env) (s s1 : manager)
    (m : SessionMetadata) (msg : string) :
  _load_session_metadata (fs s) user site = Some m ->
  _is_session_expired m (ex_now_check e) = Some false ->
  _setup_playwright (ex_setup e) s = (Returns tt, s1) ->
  try_throws action_type action_data e s1 msg ->
  contains "net::ERR_" msg || contains "Session expired" msg = true ->
  valid_datetime (ex_now_used e) ->
  exists s' m',
    execute_action user site action_type action_data e s
    = (Raise (HTTPException 401 "Session invalid. Please re-login."), s') /\
    _load_session_metadata (fs s') user site = Some m' /\
    is_valid m' = PBool false /\
    forall calls,
      execute_all user site calls s'
      = (map (fun _ => Raise (HTTPException 401 "Session expired. Please re-login."))
           calls, s').
Proof.
  intros Hload Hfresh Hsetup Hthrow Hsig Hnow.
  pose proof (load_wf _ _ _ _ Hload) as Hm.
  assert (Hfinish : forall m0 iv s0, wf_metadata m0 ->
            exists s' m',
              execute_handler user site m0 iv msg s0
              = (Raise (HTTPException 401 "Session invalid. Please re-login."), s') /\
              _load_session_metadata (fs s') user site = Some m' /\
              is_valid m' = PBool false /\
              forall calls,
                execute_all user site calls s'
                = (map (fun _ => Raise (HTTPException 401 "Session expired. Please re-login."))
                     calls, s')).
  { intros m0 iv s0 Hm0.
    destruct (execute_handler_invalidates user site m0 iv msg s0 Hsig Hm0) as (s' & Hh & Hl).
    exists s', (set_is_valid (PBool false) m0). repeat split; try assumption.
    intros calls. by apply (execute_all_invalid user site s' _ calls Hl). }
  unfold execute_action. rewrite Hload, Hfresh, (load_dir_exists _ _ _ _ Hload), Hsetup.
  cbn [negb]. cbv iota.
  destruct Hthrow as [msg s2 Hc|msg c s2 Hc Hp|msg c s2 Hc Hp Ha|msg c s2 res Hc Hp Ha Hcl];
    rewrite Hc; cbv iota beta.
  - by apply Hfinish.
  - rewrite Hp. by apply Hfinish.
  - rewrite Hp, Ha. by apply Hfinish.
  - rewrite Hp, Ha. unfold close_context. rewrite Hcl.
    apply Hfinish. by apply wf_set_last_used.
Qed.

(** C10. When an execute succeeds, the metadata it leaves on disk is the
    metadata it loaded with [last_used] set to the time of the call; the
    user, the site, [created_at], the validity flag and [session_data] are
    the ones loaded. *)
Theorem execute_success_frame (user site action_type : string)
    (action_data : option (list (string * pyobj))) (e : execute_env) (s s' : manager)
    (d : pyobj) :
  execute_action user site action_type action_data e s = (Ok d, s') ->
  valid_datetime (ex_now_used e) ->
  exists m m',
    _load_session_metadata (fs s) user site = Some m /\
    _load_session_metadata (fs s') user site = Some m' /\
    last_used m' = ex_now_used e /\
    user_id m' = user_id m /\ site_name m' = site_name m /\
    created_at m' = created_at m /\ is_valid m' = is_valid m /\
    session_data m' = session_data m.
Proof.
  intros Hex Hnow. unfold execute_action in Hex.
  destruct (_load_session_metadata (fs s) user site) as [m|] eqn:Hload; [|discriminate].
  pose proof (load_wf _ _ _ _ Hload) as Hm.
  assert (Hh : forall m0 iv msg s0, execute_handler user site m0 iv msg s0 <> (Ok d, s')).
  { intros m0 iv msg s0. unfold execute_handler. by destruct (_ || _). }
  destruct (_is_session_expired m (ex_now_check e)) as [[|]|]; try discriminate.
  destruct (negb _); [discriminate|].
  destruct (_setup_playwright (ex_setup e) s) as [[[]|msg] s1]; [|discriminate].
  destruct (new_context (ex_new_context e) s1) as [[c|msg] s2]; [|by destruct (Hh _ _ _ _ Hex)].
  destruct (ex_new_page e) as [[]|msg]; [|by destruct (Hh _ _ _ _ Hex)].
  destruct (_perform_action _ _ _) as [res|msg]; [|by destruct (Hh _ _ _ _ Hex)].
  unfold close_context in Hex.
  destruct (ex_close e) as [[]|msg]; [|by destruct (Hh _ _ _ _ Hex)].
  inversion Hex; subst. simpl.
  exists m, (set_last_used (ex_now_used e) m). split; [reflexivity|].
  split; [|by repeat split].
  rewrite (load_reads_text _ _ _ _ (read_after_save _ _ _ _ _)).
  apply decode_metadata_file_text. by apply wf_set_last_used.
Qed.

(** Whenever the action of an execute raises, the context the call opened
    is still open in the state the call leaves. *)
Lemma execute_failure_keeps_context_open (user site action_type : string)
    (action_data : option (list (string * pyobj))) (e : execute_env) (s s1 s2 : manager)
    (m : SessionMetadata) (c : context) (msg : string) :
  _load_session_metadata (fs s) user site = Some m ->
  _is_session_expired m (ex_now_check e) = Some false ->
  _setup_playwright (ex_setup e) s = (Returns tt, s1) ->
  new_context (ex_new_context e) s1 = (Returns c, s2) ->
  ex_new_page e = Returns tt ->
  _perform_action (ex_page e) action_type (default [] action_data) = Throws msg ->
  exists err s',
    execute_action user site action_type action_data e s = (Raise err, s') /\
    c ∈ open_contexts s'.
Proof.
  intros Hload Hfresh Hsetup Hc Hp Ha.
  unfold execute_action. rewrite Hload, Hfresh, (load_dir_exists _ _ _ _ Hload), Hsetup.
  cbn [negb]. cbv iota. rewrite Hc. cbv iota beta. rewrite Hp, Ha.
  assert (Hopen : c ∈ open_contexts s2).
  { unfold new_context in Hc. destruct (browser s1); [|discriminate].
    destruct (ex_new_context e); [|discriminate]. inversion Hc; subst. simpl. set_solver. }
  unfold execute_handler. destruct (_ || _); do 2 eexists; (split; [reflexivity|exact Hopen]).
Qed.

End DispatcherClaims.

Lemma execute_transport_failure_invalidates_witness :
  exists s' m',
    execute_action (L := Ref.libs) "u1" "siteA" "get_profile" None
      (Demo.execute_ok Demo.page_net_error) Demo.confirmed
    = (Raise (HTTPException 401 "Session invalid. Please re-login."), s') /\
    _load_session_metadata (L := Ref.libs) (fs s') "u1" "siteA" = Some m' /\
    is_valid m' = PBool false /\
    forall calls,
      execute_all (L := Ref.libs) "u1" "siteA" calls s'
      = (map (fun _ => Raise (HTTPException 401 "Session expired. Please re-login."))
           calls, s').
Proof.
  eapply (@execute_transport_failure_invalidates Ref.libs ref_laws "u1" "siteA"
            "get_profile" None (Demo.execute_ok Demo.page_net_error)
            Demo.confirmed Demo.confirmed _
            "Page.goto: net::ERR_CONNECTION_REFUSED at https://x/feed").
  - vm_compute. reflexivity.
  - vm_compute. reflexivity.
  - reflexivity.
  - eapply throws_action; reflexivity.
  - vm_compute. reflexivity.
  - unfold valid_datetime, datetime_max. simpl. lia.
Defined.

Lemma execute_success_frame_witness :
  exists m m',
    _load_session_metadata (L := Ref.libs) (fs Demo.confirmed) "u1" "siteA" = Some m /\
    _load_session_metadata (L := Ref.libs)
      (fs (execute_action (L := Ref.libs) "u1" "siteA" "get_profile" None
             (Demo.execute_ok Demo.page_ok) Demo.confirmed).2) "u1" "siteA"
    = Some m' /\
    last_used m' = ex_now_used (Demo.execute_ok Demo.page_ok) /\
    user_id m' = user_id m /\ site_name m' = site_name m /\
    created_at m' = created_at m /\ is_valid m' = is_valid m /\
    session_data m' = session_data m.
Proof.
  eapply (@execute_success_frame Ref.libs ref_laws "u1" "siteA" "get_profile" None
            (Demo.execute_ok Demo.page_ok) Demo.confirmed).
  - vm_compute. reflexivity.
  - unfold valid_datetime, datetime_max. simpl. lia.
Defined.

(** C8 fails on the code: an execute with an unknown action type on a
    confirmed, unexpired session opens context 1, raises 500 from the
    handler, and returns with context 1 still open; only the success path
    closes the context. *)
Lemma execute_failure_leaks_context :
  let call := execute_action (L := Ref.libs) "u1" "siteA" "unknown" None
                (Demo.execute_ok Demo.page_ok) Demo.confirmed in
  open_contexts Demo.confirmed = ∅ /\
  call.1 = Raise (HTTPException 500 "Action failed: Unknown action type: unknown") /\
  open_contexts call.2 = {[ 1%nat ]} /\
  open_contexts (execute_action (L := Ref.libs) "u1" "siteA" "get_profile" None
                   (Demo.execute_ok Demo.page_ok) Demo.confirmed).2 = ∅.
Proof. vm_compute. repeat split. Qed.

(** * Further properties of the service *)

(** ** Path texts *)

Lemma has_char_app (c : ascii) (a b : string) :
  has_char c (a +:+ b) = has_char c a || has_char c b.
Proof.
  induction a as [|x a IH]; [done|]. rewrite str_app_cons. simpl.
  by rewrite IH, orb_assoc.
Qed.

Lemma split_on_whole (c : ascii) (s : string) : has_char c s = false -> split_on c s = [s].
Proof.
  induction s as [|x s IH]; [done|]. simpl. intros [Hx Hs]%orb_false_iff.
  by rewrite Hx, (IH Hs).
Qed.

Lemma split_on_first (c : ascii) (a r : string) :
  has_char c a = false -> split_on c (a +:+ String c r) = a :: split_on c r.
Proof.
  induction a as [|x a IH].
  - intros _. rewrite str_app_nil_l. simpl. by rewrite Ascii.eqb_refl.
  - rewrite str_app_cons. simpl. intros [Hx Ha]%orb_false_iff.
    by rewrite Hx, (IH Ha).
Qed.


Lemma has_char_nonempty (c : ascii) (s : string) :
  has_char c s = true -> String.eqb s "" = false.
Proof. by destruct s. Qed.

Lemma has_underscore_not_dot (s : string) :
  has_char "_" s = true -> String.eqb s "." = false.
Proof.
  destruct s as [|c [|c' s]]; simpl.
  - discriminate.
  - rewrite orb_false_r. intros H%Ascii.eqb_eq. by subst c.
  - intros _. apply andb_false_r.
Qed.

Lemma root_of_no_slash (s : string) : has_char "/" s = false -> root_of s = "".
Proof.
  destruct s as [|c s]; [done|]. simpl. intros [H _]%orb_false_iff. by rewrite H.
Qed.

(** pathlib keeps a flat name as it is. *)
Lemma path_join_flat (base name : string) :
  has_char "/" name = false -> has_char "_" name = true ->
  path_join base name = base +:+ "/" +:+ name.
Proof.
  intros Hflat Hname. unfold path_join, components.
  rewrite (root_of_no_slash _ Hflat), (split_on_whole _ _ Hflat). simpl.
  by rewrite (has_char_nonempty _ _ Hname), (has_underscore_not_dot _ Hname).
Qed.

Lemma ancestors_from_flat (pre s : string) :
  has_char "/" s = false -> ancestors_from pre s = [].
Proof.
  revert pre. induction s as [|c s IH]; intros pre; [done|]. simpl.
  intros [Hc Hs]%orb_false_iff. rewrite Hc. simpl. by apply IH.
Qed.

Lemma str_prefix_head (p a b : string) : String.prefix (p +:+ a) (p +:+ b) = String.prefix a b.
Proof.
  induction p as [|c p IH]; [done|]. rewrite !str_app_cons. simpl.
  by destruct (ascii_dec c c).
Qed.

Lemma str_prefix_has_char (c : ascii) (a b : string) :
  String.prefix (a +:+ String c "") b = true -> has_char c b = true.
Proof.
  revert b. induction a as [|x a IH]; intros [|y b]; try done.
  - rewrite str_app_nil_l. simpl. destruct (ascii_dec c y) as [->|]; [|done].
    by rewrite Ascii.eqb_refl.
  - rewrite str_app_cons. simpl. destruct (ascii_dec x y); [|done].
    intros H%IH. rewrite H. apply orb_true_r.
Qed.

Section SessionPaths.
Context {L : PyLibs}.

(** The directory of a flat key is its name below the sessions directory. *)
Lemma session_dir_flat (user site : string) :
  flat_key user site ->
  _get_session_dir user site
  = SESSIONS_DIR +:+ "/" +:+ user +:+ "_" +:+
    String.substring 0 16 (sha256_hexdigest (user +:+ ":" +:+ site)) +:+ "_" +:+ site.
Proof.
  intros Hflat. unfold _get_session_dir. apply path_join_flat; [exact Hflat|].
  rewrite has_char_app. change ("_" +:+ ?x) with (String "_" x). simpl.
  apply orb_true_r.
Qed.

(** The only directory above it is the sessions directory. *)
Lemma session_dir_ancestors (user site : string) :
  flat_key user site -> ancestors (_get_session_dir user site) = [SESSIONS_DIR].
Proof.
  intros Hflat. rewrite (session_dir_flat _ _ Hflat).
  set (name := user +:+ "_" +:+ _) in *.
  change (ancestors (SESSIONS_DIR +:+ "/" +:+ name))
    with (SESSIONS_DIR :: ancestors_from (SESSIONS_DIR +:+ "/") name).
  by rewrite (ancestors_from_flat _ _ Hflat).
Qed.

(** The directories of two flat keys do not lie one below the other. *)
Lemma session_dirs_apart (user site user' site' : string) :
  flat_key user site -> flat_key user' site' ->
  _get_session_dir user' site' <> _get_session_dir user site ->
  in_tree (_get_session_dir user site) (_get_session_dir user' site') = false.
Proof.
  intros Hflat Hflat' Hne. unfold in_tree.
  apply orb_false_iff. split; [by apply String.eqb_neq|].
  rewrite (session_dir_flat _ _ Hflat), (session_dir_flat _ _ Hflat').
  set (name := user +:+ "_" +:+ _) in *. set (name' := user' +:+ "_" +:+ _) in *.
  change (SESSIONS_DIR +:+ "/" +:+ ?x) with ((SESSIONS_DIR +:+ "/") +:+ x).
  rewrite str_app_assoc, str_prefix_head.
  destruct (String.prefix (name +:+ "/") name') eqn:Hp; [|done].
  apply str_prefix_has_char in Hp. unfold flat_key in Hflat'. fold name' in Hflat'.
  congruence.
Qed.

End SessionPaths.

(** ** Directory scheme *)

Lemma str_app_inv_head (p a b : string) : p +:+ a = p +:+ b -> a = b.
Proof.
  induction p as [|c p IH]; [done|]. rewrite !str_app_cons. intros [= H]. by apply IH.
Qed.

(** Two texts split at their first separator agree piece by piece. *)
Lemma split_at_first (c : ascii) (a a' r r' : string) :
  has_char c a = false -> has_char c a' = false ->
  a +:+ String c r = a' +:+ String c r' -> a = a' /\ r = r'.
Proof.
  revert a'. induction a as [|x a IH]; intros [|x' a'] Ha Ha'; simpl in *.
  - rewrite !str_app_nil_l. by intros [= ->].
  - rewrite str_app_nil_l, str_app_cons. intros [= <- _].
    by rewrite Ascii.eqb_refl in Ha'.
  - rewrite str_app_nil_l, str_app_cons. intros [= -> _].
    by rewrite Ascii.eqb_refl in Ha.
  - rewrite !str_app_cons. intros [= -> H].
    apply orb_false_iff in Ha as [_ Ha], Ha' as [_ Ha'].
    destruct (IH a' Ha Ha' H) as [-> ->]. done.
Qed.

Section DirectoryScheme.
Context {L : PyLibs}.

(** X3. Two flat keys whose user ids hold no underscore, and whose
    digests hold none, get different session directories as soon as they
    differ in the user or in the site: the name spells out both. *)
Theorem session_dir_injective (user1 site1 user2 site2 : string) :
  flat_key user1 site1 -> flat_key user2 site2 ->
  has_char "_" user1 = false -> has_char "_" user2 = false ->
  has_char "_" (String.substring 0 16 (sha256_hexdigest (user1 +:+ ":" +:+ site1))) = false ->
  has_char "_" (String.substring 0 16 (sha256_hexdigest (user2 +:+ ":" +:+ site2))) = false ->
  (user1, site1) <> (user2, site2) ->
  _get_session_dir user1 site1 <> _get_session_dir user2 site2.
Proof.
  intros Hf1 Hf2 Hu1 Hu2 Hh1 Hh2 Hne Heq. apply Hne.
  rewrite (session_dir_flat _ _ Hf1), (session_dir_flat _ _ Hf2) in Heq.
  apply str_app_inv_head in Heq.
  change ("/" +:+ ?x) with (String "/" x) in Heq. injection Heq as Heq.
  change ("_" +:+ ?x) with (String "_" x) in Heq.
  apply split_at_first in Heq as [-> Heq]; [|done..].
  apply split_at_first in Heq as [_ ->]; done.
Qed.

(** X1. A save of a flat key rewrites one file and nothing else:
    afterwards the metadata file of the key holds the new text with mode
    0o600 and every other file is what it was; no directory is removed,
    and none is made but the session directory and the sessions
    directory above it. *)
Theorem save_touches_only_metadata_file (fs : filesystem) (user site : string)
    (m : SessionMetadata) (iv : string) :
  flat_key user site ->
  let fs' := _save_session_metadata fs user site m iv in
  lookup_file fs' (_get_metadata_file user site)
  = Some {| f_content := metadata_file_text iv m; f_mode := 384 |} /\
  (forall p, p <> _get_metadata_file user site -> lookup_file fs' p = lookup_file fs p) /\
  (forall d, d <> _get_session_dir user site -> d <> SESSIONS_DIR -> fs' !! d = fs !! d) /\
  (forall d, is_Some (fs !! d) -> is_Some (fs' !! d)).
Proof.
  intros Hflat fs'. unfold fs'. rewrite save_result.
  split; [apply lookup_file_insert|]. split; [|split].
  - intros [d n] Hp. rewrite <- (lookup_file_mkdir (_get_metadata_file user site).1 fs).
    unfold lookup_file, dir_before. simpl.
    destruct (decide (d = _get_session_dir user site)) as [->|Hd].
    + rewrite lookup_insert_eq, mkdir_makes.
      assert (n <> "session_metadata.json") by (intros ->; by apply Hp).
      by rewrite lookup_insert_ne.
    + by rewrite lookup_insert_ne.
  - intros d Hd Hs. simpl. rewrite lookup_insert_ne by done.
    apply mkdir_other; [done|]. rewrite (session_dir_ancestors _ _ Hflat).
    intros [H|[]]. by apply Hs.
  - intros d Hd. simpl.
    destruct (decide (d = _get_session_dir user site)) as [->|Hne].
    + by rewrite lookup_insert_eq.
    + rewrite lookup_insert_ne by done. by rewrite mkdir_keeps.
Qed.

(** Loading looks at the metadata file of the key and at nothing else. *)
Lemma load_ext (fs1 fs2 : filesystem) (user site : string) :
  lookup_file fs1 (_get_metadata_file user site)
  = lookup_file fs2 (_get_metadata_file user site) ->
  _load_session_metadata fs1 user site = _load_session_metadata fs2 user site.
Proof. unfold _load_session_metadata, file_exists, read_file. by intros ->. Qed.

(** X2. Sessions of flat keys are independent on disk: saving metadata
    under one key does not change what loading returns for a key with
    another directory. *)
Theorem save_keeps_other_sessions (fs : filesystem) (user site user' site' : string)
    (m : SessionMetadata) (iv : string) :
  flat_key user site -> flat_key user' site' ->
  _get_session_dir user' site' <> _get_session_dir user site ->
  _load_session_metadata (_save_session_metadata fs user site m iv) user' site'
  = _load_session_metadata fs user' site'.
Proof.
  intros _ _ Hd. apply load_ext. rewrite save_result.
  rewrite <- (lookup_file_mkdir (_get_metadata_file user site).1 fs).
  unfold lookup_file. simpl. by rewrite lookup_insert_ne.
Qed.

End DirectoryScheme.

(** ** Engine start-up and session creation *)

Lemma setup_frame (e : setup_env) (s : manager) :
  let s1 := (_setup_playwright e s).2 in
  fs s1 = fs s /\ active_sessions s1 = active_sessions s /\
  open_contexts s1 = open_contexts s /\ next_context s1 = next_context s.
Proof. unfold _setup_playwright. by repeat case_match. Qed.

Lemma new_context_frame (o : outcome unit) (s : manager) :
  let s1 := (new_context o s).2 in
  fs s1 = fs s /\ active_sessions s1 = active_sessions s /\
  playwright s1 = playwright s /\ browser s1 = browser s.
Proof. unfold new_context. by repeat case_match. Qed.

Section Creation.
Context {L : PyLibs}.




(** X19. Shutting the engine down un-sticks it: after a clean-up that
    returns, neither the engine nor the browser is set, so the next
    set-up starts and launches again; and the clean-up leaves the registry
    of pending logins as it was. *)
Theorem cleanup_rearms_setup (ce : cleanup_env) (s s1 : manager) :
  _cleanup_playwright ce s = (Returns tt, s1) ->
  playwright s1 = false /\ browser s1 = false /\
  active_sessions s1 = active_sessions s /\ fs s1 = fs s /\
  forall e, start_res e = Returns tt -> launch_res e = Returns tt ->
    exists s2, _setup_playwright e s1 = (Returns tt, s2) /\
               playwright s2 = true /\ browser s2 = true.
Proof.
  unfold _cleanup_playwright. intros Hc.
  assert (H : playwright s1 = false /\ browser s1 = false /\
              active_sessions s1 = active_sessions s /\ fs s1 = fs s).
  { repeat case_match; simplify_eq/=; repeat split; try done;
      by apply not_true_is_false. }
  destruct H as (Hp & Hb & Ha & Hf). repeat split; try done.
  intros e Hstart Hlaunch. unfold _setup_playwright. rewrite Hp, Hstart, Hlaunch. simpl.
  by eexists.
Qed.

End Creation.

(** ** Confirmation *)

Section Confirmation.
Context {L : PyLibs} {HL : PyLibsLaws L}.

(** The metadata a confirmation writes. *)
Lemma confirm_metadata_wf (user site url : string) (t1 t2 t3 : datetime) :
  valid_datetime t1 -> valid_datetime t2 ->
  wf_metadata
    {| user_id := PStr user; site_name := PStr site; created_at := t1; last_used := t2;
       is_valid := PBool true;
       session_data := PDict [ ("login_url", PStr url);
                               ("confirmed_at", PStr (isoformat t3)) ] |}.
Proof. intros H1 H2. unfold wf_metadata. simpl. tauto. Qed.

(** X7. A confirmation that succeeds closes the pending context and
    leaves on disk a valid session of the key: loading returns the user,
    the site, the two times of the call, the flag [True] and the page's
    URL, and until 168 hours after that time the session is not expired. *)
Theorem confirm_success_persists (user site : string) (e : confirm_env) (s s' : manager)
    (d : pyobj) :
  confirm_login user site e s = (Ok d, s') ->
  valid_datetime (cf_now_created e) -> valid_datetime (cf_now_used e) ->
  exists c m,
    active_sessions s !! (user +:+ ":" +:+ site) = Some c /\
    open_contexts s' = open_contexts s ∖ {[c]} /\
    _load_session_metadata (fs s') user site = Some m /\
    user_id m = PStr user /\ site_name m = PStr site /\
    created_at m = cf_now_created e /\ last_used m = cf_now_used e /\
    is_valid m = PBool true /\
    dict_get (match session_data m with PDict sd => sd | _ => [] end) "login_url"
    = Some (PStr (cf_url e)) /\
    (forall now, now <= cf_now_used e + timedelta_hours 168 ->
                 cf_now_used e + timedelta_hours 168 <= datetime_max ->
                 _is_session_expired m now = Some false).
Proof.
  unfold confirm_login. intros Hc H1 H2.
  destruct (active_sessions s !! _) as [c|]; [|discriminate].
  destruct (if cf_has_page e then _ else _); [|discriminate].
  unfold close_context in Hc. destruct (cf_close e); [|discriminate].
  inversion Hc; subst. simpl. do 2 eexists. split; [reflexivity|]. split; [reflexivity|].
  split.
  { rewrite (load_reads_text _ _ _ _ (read_after_save _ _ _ _ _)).
    apply decode_metadata_file_text. by apply confirm_metadata_wf. }
  simpl. repeat split; try reflexivity.
  intros now Hnow Hmax. unfold _is_session_expired, datetime_add. simpl.
  change SESSION_TIMEOUT_HOURS with 168.
  destruct H2 as [H0 _].
  assert (Hlo : (0 <=? cf_now_used e + timedelta_hours 168) = true)
    by (apply Z.leb_le; unfold timedelta_hours; lia).
  apply Z.leb_le in Hmax. rewrite Hlo, Hmax. simpl. f_equal. apply Z.ltb_ge. lia.
Qed.

(** X8. A confirmation whose closing of the context fails raises 500 after
    the metadata was written: the session is already on disk as valid,
    while the key is still pending and its context still open. *)
Theorem confirm_close_failure_half_done (user site : string) (e : confirm_env)
    (s : manager) (c : context) (msg : string) :
  active_sessions s !! (user +:+ ":" +:+ site) = Some c ->
  (if cf_has_page e then Returns tt else cf_new_page e) = Returns tt ->
  cf_close e = Throws msg ->
  valid_datetime (cf_now_created e) -> valid_datetime (cf_now_used e) ->
  exists s' m,
    confirm_login user site e s
    = (Raise (HTTPException 500 ("Failed to confirm login: " +:+ msg)), s') /\
    active_sessions s' = active_sessions s /\
    open_contexts s' = open_contexts s /\
    _load_session_metadata (fs s') user site = Some m /\
    is_valid m = PBool true /\ last_used m = cf_now_used e.
Proof.
  intros Hpend Hpage Hclose H1 H2. unfold confirm_login, close_context.
  rewrite Hpend, Hpage, Hclose. do 2 eexists. split; [reflexivity|]. simpl.
  split; [reflexivity|]. split; [reflexivity|]. split.
  { rewrite (load_reads_text _ _ _ _ (read_after_save _ _ _ _ _)).
    apply decode_metadata_file_text. by apply confirm_metadata_wf. }
  by simpl.
Qed.

End Confirmation.

Section KeyAliasing.
Context {L : PyLibs}.

(** X9. The registry key is the text [user:site], so the pairs
    ([a:b], [c]) and ([a], [b:c]) share it: a login pending for the first
    pair is found, confirmed and removed by a confirmation of the second,
    which does not raise 404. *)
Theorem confirm_accepts_aliased_key (a b c : string) (e : confirm_env) (s : manager)
    (ctx : context) :
  active_sessions s !! ((a +:+ ":" +:+ b) +:+ ":" +:+ c) = Some ctx ->
  (if cf_has_page e then Returns tt else cf_new_page e) = Returns tt ->
  cf_close e = Returns tt ->
  exists d s',
    confirm_login a (b +:+ ":" +:+ c) e s = (Ok d, s') /\
    active_sessions s' !! ((a +:+ ":" +:+ b) +:+ ":" +:+ c) = None /\
    ctx ∉ open_contexts s'.
Proof.
  intros Hpend Hpage Hclose.
  assert (Hkey : (a +:+ ":" +:+ b) +:+ ":" +:+ c = a +:+ ":" +:+ b +:+ ":" +:+ c).
  { rewrite str_app_assoc. reflexivity. }
  rewrite Hkey in *. unfold confirm_login, close_context.
  rewrite Hpend, Hpage, Hclose. do 2 eexists. split; [reflexivity|]. simpl.
  split; [apply lookup_delete_eq|].
  apply not_elem_of_difference. right. by apply elem_of_singleton.
Qed.

End KeyAliasing.

(** ** What an execute answers *)

Lemma handler_not_404 {L : PyLibs} (user site : string) (m : SessionMetadata)
    (iv msg detail : string) (s s' : manager) :
  execute_handler user site m iv msg s <> (Raise (HTTPException 404 detail), s').
Proof. unfold execute_handler. by destruct (_ || _). Qed.

Lemma handler_not_expired {L : PyLibs} (user site : string) (m : SessionMetadata)
    (iv msg : string) (s s' : manager) :
  execute_handler user site m iv msg s
  <> (Raise (HTTPException 401 "Session expired. Please re-login."), s').
Proof. unfold execute_handler. by destruct (_ || _). Qed.

(** The handler on any other text: 500, and the state is left alone. *)
Lemma execute_handler_plain {L : PyLibs} (user site : string) (m : SessionMetadata)
    (iv msg : string) (s : manager) :
  contains "net::ERR_" msg || contains "Session expired" msg = false ->
  execute_handler user site m iv msg s
  = (Raise (HTTPException 500 ("Action failed: " +:+ msg)), s).
Proof. intros Hsig. unfold execute_handler. by rewrite Hsig. Qed.

(** The text of the error for an unknown action type matches a failure
    signature exactly when the type's own name does. *)
Lemma unknown_text_signature (a : string) :
  contains "net::ERR_" ("Unknown action type: " +:+ a)
  || contains "Session expired" ("Unknown action type: " +:+ a)
  = contains "net::ERR_" a || contains "Session expired" a.
Proof. reflexivity. Qed.

Lemma perform_unknown {L : PyLibs} (pg : page_env) (a : string)
    (d : list (string * pyobj)) :
  a <> "get_profile" -> a <> "post_message" -> a <> "screenshot" ->
  _perform_action pg a d = Throws ("Unknown action type: " +:+ a).
Proof.
  intros H1 H2 H3. unfold _perform_action.
  apply String.eqb_neq in H1, H2, H3. by rewrite H1, H2, H3.
Qed.

(** An execute that raised 401 "Session expired" found the stored session
    expired, and changed nothing. *)
Lemma execute_expired_inv {L : PyLibs} (user site action_type : string)
    (action_data : option (list (string * pyobj))) (e : execute_env) (s s' : manager) :
  execute_action user site action_type action_data e s
  = (Raise (HTTPException 401 "Session expired. Please re-login."), s') ->
  (exists m, _load_session_metadata (fs s) user site = Some m /\
             _is_session_expired m (ex_now_check e) = Some true) /\ s' = s.
Proof.
  unfold execute_action.
  destruct (_load_session_metadata (fs s) user site) as [m|] eqn:Hload; [|discriminate].
  rewrite (load_dir_exists _ _ _ _ Hload). cbn [negb]. cbv iota.
  destruct (_is_session_expired m (ex_now_check e)) as [[|]|] eqn:Hexp;
    try discriminate.
  { intros [= <-]. split; [by exists m | done]. }
  destruct (_setup_playwright (ex_setup e) s) as [[[]|msg] s1]; [|discriminate].
  destruct (new_context (ex_new_context e) s1) as [[c|msg] s2];
    [|intros H; by destruct (handler_not_expired _ _ _ _ _ _ _ H)].
  destruct (ex_new_page e) as [[]|msg];
    [|intros H; by destruct (handler_not_expired _ _ _ _ _ _ _ H)].
  destruct (_perform_action _ _ _) as [res|msg];
    [|intros H; by destruct (handler_not_expired _ _ _ _ _ _ _ H)].
  destruct (close_context _ _ _) as [[[]|msg] s4]; [discriminate|].
  intros H; by destruct (handler_not_expired _ _ _ _ _ _ _ H).
Qed.

Section Answers.
Context {L : PyLibs}.

(** X10. An execute raises 404 exactly when loading the metadata of the
    key returns nothing (no file, or a file that cannot be read back); the
    detail is then "Session not found" and the state is untouched. The
    404 "Session directory not found" of the source is never raised: a
    loaded metadata file lies in the directory the test looks for. *)
Theorem execute_not_found_iff (user site action_type : string)
    (action_data : option (list (string * pyobj))) (e : execute_env) (s s' : manager)
    (detail : string) :
  execute_action user site action_type action_data e s
  = (Raise (HTTPException 404 detail), s')
  <-> _load_session_metadata (fs s) user site = None /\
      detail = "Session not found" /\ s' = s.
Proof.
  split.
  - unfold execute_action.
    destruct (_load_session_metadata (fs s) user site) as [m|] eqn:Hload;
      [|by intros [= <- <-]].
    rewrite (load_dir_exists _ _ _ _ Hload). cbn [negb]. cbv iota.
    destruct (_is_session_expired m (ex_now_check e)) as [[|]|]; try discriminate.
    destruct (_setup_playwright (ex_setup e) s) as [[[]|msg] s1]; [|discriminate].
    destruct (new_context (ex_new_context e) s1) as [[c|msg] s2];
      [|intros H; by destruct (handler_not_404 _ _ _ _ _ _ _ _ H)].
    destruct (ex_new_page e) as [[]|msg];
      [|intros H; by destruct (handler_not_404 _ _ _ _ _ _ _ _ H)].
    destruct (_perform_action _ _ _) as [res|msg];
      [|intros H; by destruct (handler_not_404 _ _ _ _ _ _ _ _ H)].
    destruct (close_context _ _ _) as [[[]|msg] s4]; [discriminate|].
    intros H; by destruct (handler_not_404 _ _ _ _ _ _ _ _ H).
  - intros (Hload & -> & ->). unfold execute_action. by rewrite Hload.
Qed.

(** X11. An execute raises 401 "Session expired. Please re-login."
    exactly when the stored session is expired at the time of the call
    (flag false, or last use more than 168 hours ago); the call then
    returns before the engine is started and changes nothing, not even
    the flag on disk. *)
Theorem execute_expired_iff (user site action_type : string)
    (action_data : option (list (string * pyobj))) (e : execute_env) (s s' : manager) :
  execute_action user site action_type action_data e s
  = (Raise (HTTPException 401 "Session expired. Please re-login."), s')
  <-> (exists m, _load_session_metadata (fs s) user site = Some m /\
                 _is_session_expired m (ex_now_check e) = Some true) /\ s' = s.
Proof.
  split; [apply execute_expired_inv|].
  intros [(m & Hload & Hexp) ->]. unfold execute_action. by rewrite Hload, Hexp.
Qed.

(** X13. In every state the service reaches, an execute that succeeds
    leaves the set of open contexts as it found it (the context it opened
    is the one it closed) and the pending registry unchanged. *)
Theorem execute_success_closes_context (user site action_type : string)
    (action_data : option (list (string * pyobj))) (e : execute_env) (s s' : manager)
    (d : pyobj) :
  reachable s ->
  execute_action user site action_type action_data e s = (Ok d, s') ->
  open_contexts s' = open_contexts s /\ active_sessions s' = active_sessions s /\
  next_context s' = S (next_context s).
Proof.
  intros Hreach Hex. apply reachable_registry_ok in Hreach as (_ & Hlt & _).
  unfold execute_action in Hex.
  assert (Hh : forall m0 iv msg s0, execute_handler user site m0 iv msg s0 <> (Ok d, s')).
  { intros m0 iv msg s0. unfold execute_handler. by destruct (_ || _). }
  destruct (_load_session_metadata (fs s) user site) as [m|]; [|discriminate].
  destruct (_is_session_expired m (ex_now_check e)) as [[|]|]; try discriminate.
  destruct (negb _); [discriminate|].
  pose proof (setup_frame (ex_setup e) s) as (_ & Ha & Ho & Hn).
  destruct (_setup_playwright (ex_setup e) s) as [[[]|msg] s1]; [|discriminate].
  simpl in Ha, Ho, Hn. unfold new_context in Hex.
  destruct (browser s1); [|by destruct (Hh _ _ _ _ Hex)].
  destruct (ex_new_context e) as [[]|msg]; [|by destruct (Hh _ _ _ _ Hex)].
  destruct (ex_new_page e) as [[]|msg]; [|by destruct (Hh _ _ _ _ Hex)].
  destruct (_perform_action _ _ _) as [res|msg]; [|by destruct (Hh _ _ _ _ Hex)].
  unfold close_context in Hex.
  destruct (ex_close e) as [[]|msg]; [|by destruct (Hh _ _ _ _ Hex)].
  inversion Hex; subst. simpl. rewrite Ha, Ho, Hn. split; [|done].
  assert (Hfresh : next_context s ∉ open_contexts s) by (intros Hin%Hlt; lia).
  apply set_eq. intros c. rewrite elem_of_difference, elem_of_union, !elem_of_singleton.
  split; [by intros [[->|Hc] Hne] | intros Hc; split; [by right | by intros ->]].
Qed.

End Answers.

Section Failures.
Context {L : PyLibs} {HL : PyLibsLaws L}.

(** X12. When the [try] block of an execute on a confirmed, unexpired
    session raises an exception whose text holds neither "net::ERR_" nor
    "Session expired", the call raises 500 "Action failed: ..." with that
    text; the session stays usable: its metadata still loads, with the
    flag it had, and the pending registry is unchanged. *)
Theorem execute_plain_failure_keeps_session (user site action_type : string)
    (action_data : option (list (string * pyobj))) (e : execute_env) (s s1 : manager)
    (m : SessionMetadata) (msg : string) :
  _load_session_metadata (fs s) user site = Some m ->
  _is_session_expired m (ex_now_check e) = Some false ->
  _setup_playwright (ex_setup e) s = (Returns tt, s1) ->
  try_throws action_type action_data e s1 msg ->
  contains "net::ERR_" msg || contains "Session expired" msg = false ->
  valid_datetime (ex_now_used e) ->
  exists s' m',
    execute_action user site action_type action_data e s
    = (Raise (HTTPException 500 ("Action failed: " +:+ msg)), s') /\
    _load_session_metadata (fs s') user site = Some m' /\
    is_valid m' = is_valid m /\ created_at m' = created_at m /\
    active_sessions s' = active_sessions s.
Proof.
  intros Hload Hfresh Hsetup Hthrow Hsig Hnow.
  pose proof (load_wf _ _ _ _ Hload) as Hm.
  pose proof (setup_frame (ex_setup e) s) as (Hf1 & Ha1 & _). rewrite Hsetup in Hf1, Ha1.
  simpl in Hf1, Ha1.
  unfold execute_action. rewrite Hload, Hfresh, (load_dir_exists _ _ _ _ Hload), Hsetup.
  cbn [negb]. cbv iota.
  assert (Hframe : forall r s2, new_context (ex_new_context e) s1 = (r, s2) ->
            fs s2 = fs s /\ active_sessions s2 = active_sessions s).
  { intros r s2 Hc. pose proof (new_context_frame (ex_new_context e) s1) as (Hf & Ha & _).
    rewrite Hc in Hf, Ha. simpl in Hf, Ha. by rewrite Hf, Ha. }
  destruct Hthrow as [msg s2 Hc|msg c s2 Hc Hp|msg c s2 Hc Hp Ha|msg c s2 res Hc Hp Ha Hcl];
    rewrite Hc; cbv iota beta; destruct (Hframe _ _ Hc) as [Hf2 Ha2].
  - rewrite execute_handler_plain by done. exists s2, m. by rewrite Hf2.
  - rewrite Hp, execute_handler_plain by done. exists s2, m. by rewrite Hf2.
  - rewrite Hp, Ha, execute_handler_plain by done. exists s2, m. by rewrite Hf2.
  - rewrite Hp, Ha. unfold close_context. rewrite Hcl.
    rewrite execute_handler_plain by done.
    eexists _, (set_last_used (ex_now_used e) m). split; [reflexivity|]. simpl.
    split; [|done].
    rewrite (load_reads_text _ _ _ _ (read_after_save _ _ _ _ _)).
    apply decode_metadata_file_text. by apply wf_set_last_used.
Qed.

(** X14. The error for an unknown action type quotes the type, and the
    failure signature is searched in that text: on a confirmed, unexpired
    session, a request whose action type is not one of the three known
    ones and holds "net::ERR_" or "Session expired" in its name raises
    401 and leaves the session invalidated on disk, without the page
    being used; with any other unknown name the call raises 500 and the
    disk is unchanged. *)
Theorem unknown_action_type_answer (user site action_type : string)
    (action_data : option (list (string * pyobj))) (e : execute_env) (s s1 s2 : manager)
    (m : SessionMetadata) (c : context) :
  _load_session_metadata (fs s) user site = Some m ->
  _is_session_expired m (ex_now_check e) = Some false ->
  _setup_playwright (ex_setup e) s = (Returns tt, s1) ->
  new_context (ex_new_context e) s1 = (Returns c, s2) ->
  ex_new_page e = Returns tt ->
  action_type <> "get_profile" -> action_type <> "post_message" ->
  action_type <> "screenshot" ->
  let r := execute_action user site action_type action_data e s in
  if contains "net::ERR_" action_type || contains "Session expired" action_type
  then r.1 = Raise (HTTPException 401 "Session invalid. Please re-login.") /\
       _load_session_metadata (fs r.2) user site = Some (set_is_valid (PBool false) m)
  else r.1 = Raise (HTTPException 500
                      ("Action failed: Unknown action type: " +:+ action_type)) /\
       fs r.2 = fs s.
Proof.
  intros Hload Hfresh Hsetup Hc Hp H1 H2 H3 r.
  pose proof (load_wf _ _ _ _ Hload) as Hm.
  pose proof (setup_frame (ex_setup e) s) as (Hf1 & _). rewrite Hsetup in Hf1.
  pose proof (new_context_frame (ex_new_context e) s1) as (Hf2 & _). rewrite Hc in Hf2.
  simpl in Hf1, Hf2.
  assert (Hr : r = execute_handler user site m (ex_iv_invalid e)
                     ("Unknown action type: " +:+ action_type) s2).
  { unfold r, execute_action.
    rewrite Hload, Hfresh, (load_dir_exists _ _ _ _ Hload), Hsetup.
    cbn [negb]. cbv iota. rewrite Hc. cbv iota beta.
    by rewrite Hp, perform_unknown. }
  rewrite Hr. clear Hr r.
  destruct (contains "net::ERR_" action_type || contains "Session expired" action_type)
    eqn:Hsig; rewrite <- unknown_text_signature in Hsig.
  - destruct (execute_handler_invalidates user site m (ex_iv_invalid e) _ s2 Hsig Hm)
      as (s' & -> & Hl). by simpl.
  - rewrite execute_handler_plain by done. simpl. split; [done|]. by rewrite Hf2, Hf1.
Qed.

End Failures.

(** ** Listing *)

Lemma first_component_whole (s : string) : has_char "/" s = false -> first_component s = s.
Proof.
  induction s as [|x s IH]; [done|]. simpl. intros [Hx Hs]%orb_false_iff.
  by rewrite Hx, (IH Hs).
Qed.

Lemma after_prefix_app (p s : string) : after_prefix p (p +:+ s) = Some s.
Proof.
  induction p as [|c p IH]; [done|]. rewrite str_app_cons. simpl.
  by rewrite Ascii.eqb_refl.
Qed.

Section Listing.
Context {L : PyLibs}.

(** An existing session directory with a flat name is an entry of the
    sessions directory. *)
Lemma iterdir_session_dir (fs : filesystem) (user site : string) :
  let name := user +:+ "_" +:+
              String.substring 0 16 (sha256_hexdigest (user +:+ ":" +:+ site)) +:+
              "_" +:+ site in
  has_char "/" name = false ->
  dir_exists fs (_get_session_dir user site) = true ->
  In name (iterdir fs).
Proof.
  intros name Hflat Hdir. apply list_elem_of_In. unfold iterdir.
  apply elem_of_remove_dups, list_elem_of_omap.
  exists (_get_session_dir user site). split.
  - apply elem_of_elements, elem_of_dom. by apply bool_decide_eq_true in Hdir.
  - unfold entry_name. rewrite (session_dir_flat _ _ Hflat). fold name.
    change (SESSIONS_DIR +:+ "/" +:+ ?x) with ((SESSIONS_DIR +:+ "/") +:+ x).
    rewrite after_prefix_app. f_equal. by apply first_component_whole.
Qed.

Lemma list_entry_raise (fs : filesystem) (filter : option string)
    (clock : string -> datetime) (name : string) (x : exn) :
  list_entry fs filter clock name = Raise x -> x = Uncaught "date value out of range".
Proof.
  unfold list_entry. repeat case_match; congruence.
Qed.

Lemma list_loop_raise (fs : filesystem) (filter : option string)
    (clock : string -> datetime) (names : list string) (x : exn) :
  list_loop fs filter clock names = Raise x -> x = Uncaught "date value out of range".
Proof.
  induction names as [|name names IH]; [discriminate|]. simpl.
  destruct (list_entry fs filter clock name) as [row|y] eqn:He.
  - destruct (list_loop fs filter clock names); [discriminate|].
    intros [= <-]. by apply IH.
  - intros [= <-]. by apply list_entry_raise in He.
Qed.

Lemma list_loop_complete (fs : filesystem) (filter : option string)
    (clock : string -> datetime) (names : list string) (name : string) (row : pyobj) :
  In name names -> list_entry fs filter clock name = Ok (Some row) ->
  match list_loop fs filter clock names with
  | Ok rows => In row rows
  | Raise x => x = Uncaught "date value out of range"
  end.
Proof.
  intros Hin He. induction names as [|name0 names IH]; [destruct Hin|]. simpl.
  destruct (list_entry fs filter clock name0) as [row0|y] eqn:He0;
    [|by apply list_entry_raise in He0].
  destruct (list_loop fs filter clock names) as [rows|y] eqn:Hl;
    [|by apply list_loop_raise in Hl].
  destruct Hin as [->|Hin].
  - rewrite He in He0. injection He0 as <-. by left.
  - specialize (IH Hin). destruct row0; [by right | done].
Qed.

Lemma list_loop_sound (fs : filesystem) (filter : option string)
    (clock : string -> datetime) (names : list string) (rows : list pyobj) (row : pyobj) :
  list_loop fs filter clock names = Ok rows -> In row rows ->
  exists name, In name names /\ list_entry fs filter clock name = Ok (Some row).
Proof.
  revert rows. induction names as [|name0 names IH]; intros rows.
  - by intros [= <-] [].
  - simpl. destruct (list_entry fs filter clock name0) as [row0|y] eqn:He0; [|discriminate].
    destruct (list_loop fs filter clock names) as [rows'|y]; [|discriminate].
    intros [= <-] Hin.
    assert (Hrest : In row rows' ->
              exists name, In name (name0 :: names) /\
                           list_entry fs filter clock name = Ok (Some row)).
    { intros Hr. destruct (IH rows' eq_refl Hr) as (name & Hn & He).
      exists name. split; [by right | done]. }
    destruct row0 as [r|]; [|by apply Hrest].
    destruct Hin as [->|Hr]; [|by apply Hrest].
    exists name0. split; [by left | done].
Qed.

(** X15. Every row of a listing comes from a directory of the sessions
    directory whose name splits at underscores into at least three
    pieces: the row shows the metadata loaded for the first and third
    piece, with its expiry at the time of the check. With a non-empty
    user filter the first piece is the filter. *)
Theorem list_sessions_sound (fs : filesystem) (filter : option string)
    (clock : string -> datetime) (rows : list pyobj) (row : pyobj) :
  list_sessions fs filter clock = Ok rows -> In row rows ->
  exists name u h st rest m expired,
    In name (iterdir fs) /\ split_on "_" name = u :: h :: st :: rest /\
    _load_session_metadata fs u st = Some m /\
    _is_session_expired m (clock name) = Some expired /\
    row = session_entry m expired /\
    (forall f, filter = Some f -> f <> "" -> u = f).
Proof.
  unfold list_sessions. intros Hl Hin.
  destruct (list_loop_sound _ _ _ _ _ _ Hl Hin) as (name & Hn & He).
  unfold list_entry in He.
  destruct (split_on "_" name) as [|u [|h [|st rest]]] eqn:Hs; try discriminate.
  destruct (truthy _ && negb (String.eqb u (default "" filter))) eqn:Hf; [discriminate|].
  destruct (_load_session_metadata fs u st) as [m|] eqn:Hload; [|discriminate].
  destruct (_is_session_expired m (clock name)) as [expired|] eqn:Hx; [|discriminate].
  injection He as <-. exists name, u, h, st, rest, m, expired.
  repeat split; try done.
  intros f -> Hne. simpl in Hf. apply String.eqb_neq in Hne. rewrite Hne in Hf.
  simpl in Hf. apply negb_false_iff in Hf. by apply String.eqb_eq in Hf.
Qed.

(** X16. A session whose user id, site name and digest hold no
    underscore and no slash is listed: when its metadata loads, a listing
    without filter, or filtered on its user, either holds its row or is
    cut short by the overflow of an expiry computation. *)
Theorem list_sessions_complete (fs : filesystem) (user site : string)
    (m : SessionMetadata) (filter : option string) (clock : string -> datetime) :
  let hash := String.substring 0 16 (sha256_hexdigest (user +:+ ":" +:+ site)) in
  let name := user +:+ "_" +:+ hash +:+ "_" +:+ site in
  has_char "_" user = false -> has_char "_" hash = false -> has_char "_" site = false ->
  has_char "/" name = false ->
  _load_session_metadata fs user site = Some m ->
  filter = None \/ filter = Some user ->
  match list_sessions fs filter clock with
  | Ok rows =>
      exists expired, _is_session_expired m (clock name) = Some expired /\
                      In (session_entry m expired) rows
  | Raise x => x = Uncaught "date value out of range"
  end.
Proof.
  intros hash name Hu Hh Hs Hflat Hload Hfilter.
  assert (Hin : In name (iterdir fs)).
  { apply iterdir_session_dir; [done|]. by apply (load_dir_exists _ _ _ m). }
  assert (Hsplit : split_on "_" name = [user; hash; site]).
  { change name with (user +:+ String "_" (hash +:+ String "_" site)).
    rewrite (split_on_first _ _ _ Hu), (split_on_first _ _ _ Hh).
    by rewrite (split_on_whole _ _ Hs). }
  assert (Hskip : truthy (match filter with Some u => PStr u | None => PNone end)
                  && negb (String.eqb user (default "" filter)) = false).
  { destruct Hfilter as [->| ->]; [done|]. simpl. rewrite String.eqb_refl.
    apply andb_false_r. }
  unfold list_sessions. revert Hin. generalize (iterdir fs). intros names Hin.
  destruct (_is_session_expired m (clock name)) as [expired|] eqn:Hx.
  - assert (He : list_entry fs filter clock name = Ok (Some (session_entry m expired))).
    { unfold list_entry. by rewrite Hsplit, Hskip, Hload, Hx. }
    pose proof (list_loop_complete _ _ _ _ _ _ Hin He) as Hl.
    destruct (list_loop fs filter clock names); [by exists expired | done].
  - assert (He : list_entry fs filter clock name = Raise (Uncaught "date value out of range")).
    { unfold list_entry. by rewrite Hsplit, Hskip, Hload, Hx. }
    destruct (list_loop fs filter clock names) as [rows|x] eqn:Hl;
      [|by apply list_loop_raise in Hl].
    exfalso. revert rows Hl.
    induction names as [|name0 names IH]; [destruct Hin|]. intros rows. simpl.
    destruct Hin as [->|Hin]; [by rewrite He|].
    destruct (list_entry fs filter clock name0); [|discriminate].
    destruct (list_loop fs filter clock names) as [rows'|]; [|discriminate].
    intros _. by apply (IH Hin rows').
Qed.


End Listing.

(** ** Expiry, deletion and later calls *)

Lemma expired_later (m : SessionMetadata) (t t' : datetime) :
  _is_session_expired m t = Some true -> t <= t' -> _is_session_expired m t' = Some true.
Proof.
  unfold _is_session_expired. destruct (negb _); [done|].
  destruct (datetime_add _ _) as [x|]; [|discriminate].
  intros [= H%Z.ltb_lt] Ht. f_equal. apply Z.ltb_lt. lia.
Qed.

Section Later.
Context {L : PyLibs}.

(** X20. Expiry is final for the dispatcher: once an execute on a key has
    raised 401 "Session expired", every execute on that key whose clock
    reads the same time or later raises it again, whatever the action and
    the engine's answers, and changes nothing. Nothing the dispatcher
    does refreshes an expired session. *)
Theorem execute_expired_stays_expired (user site action_type : string)
    (action_data : option (list (string * pyobj))) (e : execute_env) (s s' : manager) :
  execute_action user site action_type action_data e s
  = (Raise (HTTPException 401 "Session expired. Please re-login."), s') ->
  s' = s /\
  forall action_type' action_data' e',
    ex_now_check e <= ex_now_check e' ->
    execute_action user site action_type' action_data' e' s'
    = (Raise (HTTPException 401 "Session expired. Please re-login."), s').
Proof.
  intros [(m & Hload & Hexp) ->]%execute_expired_inv. split; [done|].
  intros a' d' e' Ht. unfold execute_action.
  by rewrite Hload, (expired_later _ _ _ Hexp Ht).
Qed.

(** X21. After a delete, whatever it returned, an execute on the key
    raises 404 "Session not found" and changes nothing; and when the key
    is flat, every flat key with another directory loads the metadata it
    loaded before. *)
Theorem delete_then_execute (user site : string) (s : manager) :
  let s' := (delete_session user site s).2 in
  (forall action_type action_data e,
     execute_action user site action_type action_data e s'
     = (Raise (HTTPException 404 "Session not found"), s')) /\
  dir_exists (fs s') (_get_session_dir user site) = false /\
  (forall user' site',
     flat_key user site -> flat_key user' site' ->
     _get_session_dir user' site' <> _get_session_dir user site ->
     _load_session_metadata (fs s') user' site' = _load_session_metadata (fs s) user' site').
Proof.
  intros s'.
  assert (Hgone : fs s' !! _get_session_dir user site = None).
  { unfold s', delete_session, dir_exists.
    case_bool_decide as Hd; simpl; [apply rmtree_gone|].
    destruct (fs s !! _get_session_dir user site); [by destruct Hd; eexists | done]. }
  assert (Hload : _load_session_metadata (fs s') user site = None).
  { unfold _load_session_metadata, file_exists, lookup_file. simpl. rewrite Hgone.
    by rewrite bool_decide_eq_false_2 by (by intros [? ?]). }
  split; [|split].
  - intros a d e. unfold execute_action. by rewrite Hload.
  - apply bool_decide_eq_false. rewrite Hgone. by intros [? ?].
  - intros user' site' Hflat Hflat' Hne. apply load_ext. unfold lookup_file. simpl.
    unfold s', delete_session. destruct (dir_exists _ _); simpl; [|done].
    by rewrite rmtree_lookup, (session_dirs_apart _ _ _ _ Hflat Hflat' Hne).
Qed.

End Later.

(** ** The key file *)



(** ** HTTP routes *)

Section RouteStatus.
Context {L : PyLibs}.
Variable http_str : Z -> string -> string.

(** X17. No route answers 404 or 401: whatever the manager raises,
    its own 404 and 401 included, each route raises it again as 500 with
    the text of the error as detail. So the status of every response is
    200 or 500; confirming a key that is not pending and deleting a
    session that does not exist both answer 500. *)
Theorem routes_answer_200_or_500 :
  (forall user site login_url e s,
     response_status (create_session_route http_str user site login_url e s).1 = 200 \/
     response_status (create_session_route http_str user site login_url e s).1 = 500) /\
  (forall user site e s,
     response_status (confirm_login_route http_str user site e s).1 = 200 \/
     response_status (confirm_login_route http_str user site e s).1 = 500) /\
  (forall user site action_type action_data e s,
     response_status
       (execute_action_route http_str user site action_type action_data e s).1 = 200 \/
     response_status
       (execute_action_route http_str user site action_type action_data e s).1 = 500) /\
  (forall user clock s,
     response_status (list_sessions_route http_str user clock s) = 200 \/
     response_status (list_sessions_route http_str user clock s) = 500) /\
  (forall user site s,
     response_status (delete_session_route http_str user site s).1 = 200 \/
     response_status (delete_session_route http_str user site s).1 = 500) /\
  (forall user site e s,
     active_sessions s !! (user +:+ ":" +:+ site) = None ->
     confirm_login_route http_str user site e s
     = (Raise (HTTPException 500 (http_str 404 "No active session found")), s)) /\
  (forall user site s,
     dir_exists (fs s) (_get_session_dir user site) = false ->
     delete_session_route http_str user site s
     = (Raise (HTTPException 500 (http_str 404 "Session not found")), s)).
Proof.
  repeat split.
  - intros. unfold create_session_route. destruct (create_session _ _ _ _ _) as [[d|x] s'];
      [by left | by right].
  - intros. unfold confirm_login_route. destruct (confirm_login _ _ _ _) as [[d|x] s'];
      [by left | by right].
  - intros. unfold execute_action_route.
    destruct (execute_action _ _ _ _ _ _) as [[d|x] s']; [by left | by right].
  - intros. unfold list_sessions_route. destruct (list_sessions _ _ _) as [d|x];
      [by left | by right].
  - intros. unfold delete_session_route. destruct (delete_session _ _ _) as [[|] s'];
      [by left | by right].
  - intros user site e s Hnone. unfold confirm_login_route, confirm_login.
    by rewrite Hnone.
  - intros user site s Hd. unfold delete_session_route, delete_session. by rewrite Hd.
Qed.

End RouteStatus.

(** ** Worked instances *)

Lemma save_touches_only_metadata_file_witness :
  let fs' := _save_session_metadata (L := Ref.libs) Demo.saved_disk "u2" "siteA"
               Demo.m2 "iv" in
  lookup_file fs' (_get_metadata_file (L := Ref.libs) "u2" "siteA")
  = Some {| f_content := metadata_file_text (L := Ref.libs) "iv" Demo.m2; f_mode := 384 |} /\
  (forall p, p <> _get_metadata_file (L := Ref.libs) "u2" "siteA" ->
             lookup_file fs' p = lookup_file Demo.saved_disk p) /\
  (forall d, d <> _get_session_dir (L := Ref.libs) "u2" "siteA" -> d <> SESSIONS_DIR ->
             fs' !! d = Demo.saved_disk !! d) /\
  (forall d, is_Some (Demo.saved_disk !! d) -> is_Some (fs' !! d)).
Proof.
  apply (@save_touches_only_metadata_file Ref.libs Demo.saved_disk "u2" "siteA"
           Demo.m2 "iv").
  vm_compute. reflexivity.
Defined.

Lemma save_keeps_other_sessions_witness :
  _load_session_metadata (L := Ref.libs)
    (_save_session_metadata (L := Ref.libs) Demo.saved_disk "u2" "siteA" Demo.m2 "iv")
    "u1" "siteA"
  = _load_session_metadata (L := Ref.libs) Demo.saved_disk "u1" "siteA".
Proof.
  apply (@save_keeps_other_sessions Ref.libs Demo.saved_disk "u2" "siteA" "u1" "siteA"
           Demo.m2 "iv").
  - vm_compute. reflexivity.
  - vm_compute. reflexivity.
  - intros H. vm_compute in H. discriminate H.
Defined.

Lemma session_dir_injective_witness :
  _get_session_dir (L := Ref.libs) "u1" "siteA"
  <> _get_session_dir (L := Ref.libs) "u2" "siteA".
Proof.
  apply (@session_dir_injective Ref.libs "u1" "siteA" "u2" "siteA");
    try (vm_compute; reflexivity).
  discriminate.
Defined.




Lemma cleanup_rearms_setup_witness :
  playwright Tour.after_cleanup = false /\ browser Tour.after_cleanup = false /\
  active_sessions Tour.after_cleanup = active_sessions Demo.pending /\
  fs Tour.after_cleanup = fs Demo.pending /\
  forall e, start_res e = Returns tt -> launch_res e = Returns tt ->
    exists s2, _setup_playwright e Tour.after_cleanup = (Returns tt, s2) /\
               playwright s2 = true /\ browser s2 = true.
Proof.
  apply (cleanup_rearms_setup Tour.cleanup_ok Demo.pending Tour.after_cleanup).
  vm_compute. reflexivity.
Defined.

Lemma confirm_success_persists_witness :
  exists c m,
    active_sessions Demo.pending !! ("u1" +:+ ":" +:+ "siteA") = Some c /\
    open_contexts Demo.confirmed = open_contexts Demo.pending ∖ {[c]} /\
    _load_session_metadata (L := Ref.libs) (fs Demo.confirmed) "u1" "siteA" = Some m /\
    user_id m = PStr "u1" /\ site_name m = PStr "siteA" /\
    created_at m = cf_now_created Demo.confirm_ok /\
    last_used m = cf_now_used Demo.confirm_ok /\
    is_valid m = PBool true /\
    dict_get (match session_data m with PDict sd => sd | _ => [] end) "login_url"
    = Some (PStr (cf_url Demo.confirm_ok)) /\
    (forall now, now <= cf_now_used Demo.confirm_ok + timedelta_hours 168 ->
                 cf_now_used Demo.confirm_ok + timedelta_hours 168 <= datetime_max ->
                 _is_session_expired m now = Some false).
Proof.
  apply (@confirm_success_persists Ref.libs ref_laws "u1" "siteA" Demo.confirm_ok
           Demo.pending Demo.confirmed
           match (confirm_login (L := Ref.libs) "u1" "siteA" Demo.confirm_ok
                    Demo.pending).1 with Ok d => d | Raise _ => PNone end).
  - vm_compute. reflexivity.
  - unfold valid_datetime, datetime_max. simpl. lia.
  - unfold valid_datetime, datetime_max. simpl. lia.
Defined.

Lemma confirm_close_failure_half_done_witness :
  exists s' m,
    confirm_login (L := Ref.libs) "u1" "siteA" Tour.confirm_close_fails Demo.pending
    = (Raise (HTTPException 500 ("Failed to confirm login: " +:+ "Target closed")), s') /\
    active_sessions s' = active_sessions Demo.pending /\
    open_contexts s' = open_contexts Demo.pending /\
    _load_session_metadata (L := Ref.libs) (fs s') "u1" "siteA" = Some m /\
    is_valid m = PBool true /\ last_used m = cf_now_used Tour.confirm_close_fails.
Proof.
  apply (@confirm_close_failure_half_done Ref.libs ref_laws "u1" "siteA"
           Tour.confirm_close_fails Demo.pending 0%nat "Target closed").
  - vm_compute. reflexivity.
  - reflexivity.
  - reflexivity.
  - unfold valid_datetime, datetime_max. simpl. lia.
  - unfold valid_datetime, datetime_max. simpl. lia.
Defined.

Lemma confirm_accepts_aliased_key_witness :
  exists d s',
    confirm_login (L := Ref.libs) "u" ("x" +:+ ":" +:+ "y") Demo.confirm_ok
      Tour.aliased_pending = (Ok d, s') /\
    active_sessions s' !! (("u" +:+ ":" +:+ "x") +:+ ":" +:+ "y") = None /\
    0%nat ∉ open_contexts s'.
Proof.
  apply (@confirm_accepts_aliased_key Ref.libs "u" "x" "y" Demo.confirm_ok
           Tour.aliased_pending 0%nat).
  - vm_compute. reflexivity.
  - reflexivity.
  - reflexivity.
Defined.

Lemma execute_plain_failure_keeps_session_witness :
  exists s' m',
    execute_action (L := Ref.libs) "u1" "siteA" "get_profile" None
      (Demo.execute_ok Tour.page_timeout) Demo.confirmed
    = (Raise (HTTPException 500
                ("Action failed: " +:+ "Page.goto: Timeout 30000ms exceeded")), s') /\
    _load_session_metadata (L := Ref.libs) (fs s') "u1" "siteA" = Some m' /\
    is_valid m' = is_valid Tour.stored /\ created_at m' = created_at Tour.stored /\
    active_sessions s' = active_sessions Demo.confirmed.
Proof.
  apply (@execute_plain_failure_keeps_session Ref.libs ref_laws "u1" "siteA"
           "get_profile" None (Demo.execute_ok Tour.page_timeout)
           Demo.confirmed Demo.confirmed Tour.stored
           "Page.goto: Timeout 30000ms exceeded").
  - vm_compute. reflexivity.
  - vm_compute. reflexivity.
  - reflexivity.
  - eapply throws_action; reflexivity.
  - vm_compute. reflexivity.
  - unfold valid_datetime, datetime_max. simpl. lia.
Defined.

Lemma execute_success_closes_context_witness :
  open_contexts Tour.executed.2 = open_contexts Demo.confirmed /\
  active_sessions Tour.executed.2 = active_sessions Demo.confirmed /\
  next_context Tour.executed.2 = S (next_context Demo.confirmed).
Proof.
  apply (@execute_success_closes_context Ref.libs "u1" "siteA" "get_profile" None
           (Demo.execute_ok Demo.page_ok) Demo.confirmed Tour.executed.2
           match Tour.executed.1 with Ok d => d | Raise _ => PNone end).
  - apply (@reach_confirm Ref.libs), (@reach_create Ref.libs), (@reach_start Ref.libs).
  - vm_compute. reflexivity.
Defined.

Lemma unknown_action_type_answer_witness :
  let r := execute_action (L := Ref.libs) "u1" "siteA" "retry net::ERR_ABORTED" None
             (Demo.execute_ok Demo.page_ok) Demo.confirmed in
  r.1 = Raise (HTTPException 401 "Session invalid. Please re-login.") /\
  _load_session_metadata (L := Ref.libs) (fs r.2) "u1" "siteA"
  = Some (set_is_valid (PBool false) Tour.stored).
Proof.
  apply (@unknown_action_type_answer Ref.libs ref_laws "u1" "siteA"
           "retry net::ERR_ABORTED" None (Demo.execute_ok Demo.page_ok)
           Demo.confirmed Demo.confirmed (new_context (Returns tt) Demo.confirmed).2
           Tour.stored 1%nat); try discriminate; vm_compute; reflexivity.
Defined.

Lemma list_sessions_sound_witness :
  exists name u h st rest m expired,
    In name (iterdir (fs Demo.confirmed)) /\ split_on "_" name = u :: h :: st :: rest /\
    _load_session_metadata (L := Ref.libs) (fs Demo.confirmed) u st = Some m /\
    _is_session_expired m (Tour.clock name) = Some expired /\
    session_entry (L := Ref.libs) Tour.stored false = session_entry (L := Ref.libs) m expired /\
    (forall f, @None string = Some f -> f <> "" -> u = f).
Proof.
  apply (@list_sessions_sound Ref.libs (fs Demo.confirmed) None Tour.clock
           [session_entry (L := Ref.libs) Tour.stored false]).
  - vm_compute. reflexivity.
  - left. reflexivity.
Defined.

Lemma list_sessions_complete_witness :
  match list_sessions (L := Ref.libs) (fs Demo.confirmed) None Tour.clock with
  | Ok rows =>
      exists expired, _is_session_expired Tour.stored (Tour.clock "") = Some expired /\
                      In (session_entry (L := Ref.libs) Tour.stored expired) rows
  | Raise x => x = Uncaught "date value out of range"
  end.
Proof.
  apply (@list_sessions_complete Ref.libs (fs Demo.confirmed) "u1" "siteA" Tour.stored
           None Tour.clock); try (vm_compute; reflexivity).
  left. reflexivity.
Defined.



Lemma execute_expired_stays_expired_witness :
  Demo.confirmed = Demo.confirmed /\
  forall action_type' action_data' e',
    ex_now_check Tour.execute_late <= ex_now_check e' ->
    execute_action (L := Ref.libs) "u1" "siteA" action_type' action_data' e' Demo.confirmed
    = (Raise (HTTPException 401 "Session expired. Please re-login."), Demo.confirmed).
Proof.
  apply (@execute_expired_stays_expired Ref.libs "u1" "siteA" "get_profile" None
           Tour.execute_late Demo.confirmed Demo.confirmed).
  vm_compute. reflexivity.
Defined.
